(** * TestImageJIVA: the image editor page (crop, rotate, filter, upload, convert)

    A shallow embedding of the page component of the application: the three
    response extractors, the canvas transform [processImageForUpload], and
    the two handlers [handleSubmit] and [handleReset], followed by the
    properties of the specification that they meet (or miss).

    Conventions of the embedding.
    - A JavaScript value is a [JsValue].  Numbers are the integers [Z]
      (sliders, rotation, HTTP status codes, JSON integers); fractional
      pixel arithmetic is kept abstract in the class [Pixels].
    - An expression that may throw is a [Completion]; a handler threads a
      [World] (React state plus the log of HTTP requests issued).
    - The network, the browser canvas and [process.env] are explicit
      arguments. *)

From Stdlib Require Import ZArith QArith String Ascii List Bool Lia DecimalString.
Import ListNotations.
Close Scope Q_scope.
Open Scope string_scope.
Open Scope Z_scope.
Local Set Warnings "-register-all".

(** ** JavaScript values *)

(** The property list of an object is in own-property enumeration order;
    a key occurs once (a list with a repeated key reads its first binding). *)
Inductive JsValue : Type :=
| JUndefined
| JNull
| JBool (b : bool)
| JNum (n : Z)
| JStr (s : string)
| JArr (items : list JsValue)
| JObj (props : list (string * JsValue)).

(** What a [throw] carries: an [Error] instance (also TypeError,
    SyntaxError: [name] tells which) or any other value. *)
Inductive Thrown : Type :=
| ErrorObject (name message : string)
| ThrownValue (v : JsValue).

Inductive Completion (A : Type) : Type :=
| Normal (a : A)
| Throw (e : Thrown).
Arguments Normal {A} a.
Arguments Throw {A} e.

Module Js.

Definition bind {A B} (c : Completion A) (k : A -> Completion B) : Completion B :=
  match c with
  | Normal a => k a
  | Throw e => Throw e
  end.

(** [typeof v] *)
Definition typeOf (v : JsValue) : string :=
  match v with
  | JUndefined => "undefined"
  | JNull => "object"
  | JBool _ => "boolean"
  | JNum _ => "number"
  | JStr _ => "string"
  | JArr _ => "object"
  | JObj _ => "object"
  end.

(** ToBoolean: what [!v], [v ? a : b], [v || w] and [if (v)] test. *)
Definition toBoolean (v : JsValue) : bool :=
  match v with
  | JUndefined => false
  | JNull => false
  | JBool b => b
  | JNum n => negb (n =? 0)
  | JStr s => negb (s =? "")%string
  | JArr _ => true
  | JObj _ => true
  end.

(** [Array.isArray(v)] *)
Definition isArray (v : JsValue) : bool :=
  match v with
  | JArr _ => true
  | _ => false
  end.

Fixpoint lookup (k : string) (props : list (string * JsValue)) : option JsValue :=
  match props with
  | [] => None
  | (k', v) :: rest => if (k' =? k)%string then Some v else lookup k rest
  end.

(** The TypeError of a property read on [null] or [undefined] (V8 wording). *)
Definition cannotRead (base k : string) : Thrown :=
  ErrorObject "TypeError"
    ("Cannot read properties of " ++ base ++ " (reading '" ++ k ++ "')").

(** [v.k] for the property names the page reads ([url], [data],
    [metadata], [extracted_tables], [columns], [rows], [detail], [msg],
    [message]): none is an array index or a builtin of a primitive, an
    array or [Object.prototype], so only an object's own property can
    answer. *)
Definition getProp (v : JsValue) (k : string) : Completion JsValue :=
  match v with
  | JUndefined => Throw (cannotRead "undefined" k)
  | JNull => Throw (cannotRead "null" k)
  | JObj props =>
      Normal (match lookup k props with Some x => x | None => JUndefined end)
  | _ => Normal JUndefined
  end.

(** [v?.k] *)
Definition getPropOpt (v : JsValue) (k : string) : Completion JsValue :=
  match v with
  | JUndefined => Normal JUndefined
  | JNull => Normal JUndefined
  | _ => getProp v k
  end.

(** [k in v] *)
Definition hasProp (k : string) (v : JsValue) : Completion bool :=
  match v with
  | JObj props =>
      Normal (match lookup k props with Some _ => true | None => false end)
  | JArr _ => Normal false
  | _ =>
      Throw (ErrorObject "TypeError"
               ("Cannot use 'in' operator to search for '" ++ k ++ "'"))
  end.

(** Short-circuit [a || b] between conditions that may throw. *)
Definition orElse (a b : Completion bool) : Completion bool :=
  bind a (fun x => if x then Normal true else b).

Fixpoint mapM {A B} (f : A -> Completion B) (l : list A) : Completion (list B) :=
  match l with
  | [] => Normal []
  | x :: rest =>
      bind (f x) (fun y => bind (mapM f rest) (fun ys => Normal (y :: ys)))
  end.

End Js.

Declare Scope js_scope.
Delimit Scope js_scope with js.
Notation "x <- c ;; k" := (Js.bind c (fun x => k))
  (at level 61, c at next level, right associativity) : js_scope.
Notation "a ||| b" := (Js.orElse a b)
  (at level 50, left associativity) : js_scope.
Open Scope js_scope.
Declare Scope action_scope.
Delimit Scope action_scope with act.

(** ** Response presenter *)

Record ConvertTable : Type := {
  columns : JsValue;
  rows : JsValue
}.

Definition extractConvertUrl (response : JsValue) : Completion JsValue :=
  if negb (Js.toBoolean response) || negb (Js.typeOf response =? "object")%string
  then Normal JNull
  else
    maybeUrl <- Js.getProp response "url" ;;
    Normal (if (Js.typeOf maybeUrl =? "string")%string then maybeUrl else JNull).

(** The guard shared by [extractConvertTables] and [extractConvertMetadata]:
    [!response || typeof response !== "object" || !("data" in response) ||
     typeof response.data !== "object" || !response.data]. *)
Definition lacksData (response : JsValue) : Completion bool :=
  Normal (negb (Js.toBoolean response))
  ||| Normal (negb (Js.typeOf response =? "object")%string)
  ||| (present <- Js.hasProp "data" response ;; Normal (negb present))
  ||| (data <- Js.getProp response "data" ;;
       Normal (negb (Js.typeOf data =? "object")%string))
  ||| (data <- Js.getProp response "data" ;; Normal (negb (Js.toBoolean data))).

(** The callback of [tables.map]: [null] is [None]. *)
Definition tableOfEntry (table : JsValue) : Completion (option ConvertTable) :=
  malformed <-
    (Normal (negb (Js.typeOf table =? "object")%string)
     ||| Normal (negb (Js.toBoolean table))
     ||| (c <- Js.getProp table "columns" ;; Normal (negb (Js.isArray c)))
     ||| (r <- Js.getProp table "rows" ;; Normal (negb (Js.isArray r)))) ;;
  if malformed then Normal None
  else
    c <- Js.getProp table "columns" ;;
    r <- Js.getProp table "rows" ;;
    Normal (Some {| columns := c; rows := r |}).

(** [.filter((table) => !!table)] on the mapped entries. *)
Fixpoint dropNulls {A} (l : list (option A)) : list A :=
  match l with
  | [] => []
  | Some a :: rest => a :: dropNulls rest
  | None :: rest => dropNulls rest
  end.

Definition extractConvertTables (response : JsValue) : Completion (list ConvertTable) :=
  guard <- lacksData response ;;
  if guard then Normal []
  else
    data <- Js.getProp response "data" ;;
    tables <- Js.getProp data "extracted_tables" ;;
    match tables with
    | JArr entries =>
        mapped <- Js.mapM tableOfEntry entries ;;
        Normal (dropNulls mapped)
    | _ => Normal []
    end.

Definition extractConvertMetadata (response : JsValue) : Completion JsValue :=
  guard <- lacksData response ;;
  if guard then Normal JNull
  else
    data <- Js.getProp response "data" ;;
    metadata <- Js.getProp data "metadata" ;;
    if negb (Js.toBoolean metadata) || negb (Js.typeOf metadata =? "object")%string
    then Normal JNull
    else Normal metadata.

(** ** Strings of values: ToString, [Array.prototype.join], [JSON.stringify] *)

Module Text.

(** Number::toString of an integer: its decimal digits.  This is what
    JavaScript prints for the safe integers (magnitude at most 2^53 - 1);
    beyond them it rounds the digits and, from 10^21 on, prints an
    exponent, and a number with a fractional part is no [JNum] at all:
    see [printable]. *)
Definition numberToString (n : Z) : string :=
  NilZero.string_of_int (Z.to_int n).

Definition booleanToString (b : bool) : string :=
  if b then "true" else "false".

Fixpoint joinStrings (sep : string) (l : list string) : string :=
  match l with
  | [] => ""
  | [s] => s
  | s :: rest => s ++ sep ++ joinStrings sep rest
  end.

(** ToString of a value; an array is its elements joined by a comma, with
    [null] and [undefined] elements left empty.  An object prints as
    [[object Object]]; JavaScript throws a TypeError instead when the
    object has a key [toString] of its own (a JSON value is never
    callable): see [printable]. *)
Fixpoint toString (v : JsValue) : string :=
  match v with
  | JUndefined => "undefined"
  | JNull => "null"
  | JBool b => booleanToString b
  | JNum n => numberToString n
  | JStr s => s
  | JArr items =>
      joinStrings ","
        ((fix each (l : list JsValue) : list string :=
            match l with
            | [] => []
            | JUndefined :: rest => "" :: each rest
            | JNull :: rest => "" :: each rest
            | x :: rest => toString x :: each rest
            end) items)
  | JObj _ => "[object Object]"
  end.

(** One element of [join]. *)
Definition joinElement (v : JsValue) : string :=
  match v with
  | JUndefined => ""
  | JNull => ""
  | _ => toString v
  end.

(** [items.join(sep)] *)
Definition join (sep : string) (items : list JsValue) : string :=
  joinStrings sep (map joinElement items).

Definition doubleQuote : ascii := ascii_of_nat 34.
Definition backslash : ascii := ascii_of_nat 92.

Definition hexDigit (n : nat) : ascii :=
  if (n <? 10)%nat then ascii_of_nat (48 + n) else ascii_of_nat (87 + n).

(** QuoteJSONString, one code unit. *)
Definition escapeChar (c : ascii) : string :=
  let n := nat_of_ascii c in
  if (n =? 34)%nat then String backslash (String doubleQuote "")
  else if (n =? 92)%nat then String backslash (String backslash "")
  else if (n =? 8)%nat then String backslash "b"
  else if (n =? 12)%nat then String backslash "f"
  else if (n =? 10)%nat then String backslash "n"
  else if (n =? 13)%nat then String backslash "r"
  else if (n =? 9)%nat then String backslash "t"
  else if (n <? 32)%nat then
    String backslash
      ("u00" ++ String (hexDigit (n / 16)) (String (hexDigit (n mod 16)) ""))
  else String c "".

Fixpoint escape (s : string) : string :=
  match s with
  | EmptyString => ""
  | String c rest => escapeChar c ++ escape rest
  end.

Definition quote (s : string) : string :=
  String doubleQuote (escape s ++ String doubleQuote "").

(** [JSON.stringify(v)] without indentation: [None] is [undefined]. *)
Fixpoint stringify (v : JsValue) : option string :=
  match v with
  | JUndefined => None
  | JNull => Some "null"
  | JBool b => Some (booleanToString b)
  | JNum n => Some (numberToString n)
  | JStr s => Some (quote s)
  | JArr items =>
      Some ("[" ++
            joinStrings ","
              ((fix each (l : list JsValue) : list string :=
                  match l with
                  | [] => []
                  | x :: rest =>
                      match stringify x with
                      | Some s => s
                      | None => "null"
                      end :: each rest
                  end) items)
            ++ "]")
  | JObj props =>
      Some ("{" ++
            joinStrings ","
              ((fix each (l : list (string * JsValue)) : list string :=
                  match l with
                  | [] => []
                  | (k, x) :: rest =>
                      match stringify x with
                      | Some s => (quote k ++ ":" ++ s) :: each rest
                      | None => each rest
                      end
                  end) props)
            ++ "}")
  end.

(** [JSON.stringify(v)] as a value. *)
Definition stringifyValue (v : JsValue) : JsValue :=
  match stringify v with
  | Some s => JStr s
  | None => JUndefined
  end.

Definition maxSafeInteger : Z := 9007199254740991.

(** The values on which [toString], [join] and [stringify] give what
    JavaScript gives: every number in them is a safe integer, and no object
    in them has a key [toString]. *)
Fixpoint printable (v : JsValue) : bool :=
  match v with
  | JNum n => Z.abs n <=? maxSafeInteger
  | JArr items =>
      (fix all (l : list JsValue) : bool :=
         match l with
         | [] => true
         | x :: rest => printable x && all rest
         end) items
  | JObj props =>
      match Js.lookup "toString" props with
      | Some _ => false
      | None =>
          (fix all (l : list (string * JsValue)) : bool :=
             match l with
             | [] => true
             | (_, x) :: rest => printable x && all rest
             end) props
      end
  | _ => true
  end.

End Text.

(** ** Pixel arithmetic

    Crop coordinates and scale factors are fractional JavaScript numbers.
    Their arithmetic is an interface, so that what is proved of the
    transform holds for IEEE doubles as for exact rationals.
    [toUnsignedLong] is the conversion of a number to an unsigned long
    attribute of the DOM: truncation toward zero, modulo 2^32. *)
Class Pixels (num : Type) : Type := {
  ofZ : Z -> num;
  mul : num -> num -> num;
  div : num -> num -> num;
  neg : num -> num;
  positive : num -> bool;
  toUnsignedLong : num -> Z
}.

(** Exact rationals, for running the model. *)
#[export] Instance Pixels_Q : Pixels Q := {
  ofZ := inject_Z;
  mul := Qmult;
  div := Qdiv;
  neg := Qopp;
  positive := fun q => negb (Qle_bool q (inject_Z 0));
  toUnsignedLong := fun q => Z.quot (Qnum q) (Zpos (Qden q)) mod 4294967296
}.

(** ** Files, the filter string and [process.env] *)

Record File : Type := {
  file_name : string;
  file_type : string;
  file_bits : string
}.

Record Blob : Type := {
  blob_type : string;
  blob_bits : string
}.

(** The decoded [<img>] element: natural and displayed size. *)
Record Image : Type := {
  naturalWidth : Z;
  naturalHeight : Z;
  img_width : Z;
  img_height : Z
}.

(** [a || b] on strings. *)
Definition orString (a b : string) : string :=
  if (a =? "")%string then b else a.

Definition appliedFilter (grayscale contrast : Z) : string :=
  let grayValue := Z.max 0 (Z.min 100 grayscale) in
  "grayscale(" ++ Text.numberToString grayValue ++ "%) contrast("
    ++ Text.numberToString contrast ++ "%)".

Record ProcessEnv : Type := {
  NEXT_PUBLIC_PARSE_URL : option string;
  NEXT_PUBLIC_CONVERT_API_URL : option string;
  NEXT_PUBLIC_CONVERT_API_TOKEN : option string;
  NEXT_PUBLIC_CONVERT_ENTITY_TYPE : option string;
  NEXT_PUBLIC_CONVERT_ENTITY_ID : option string;
  NEXT_PUBLIC_CONVERT_CLASS_ID : option string;
  NEXT_PUBLIC_CONVERT_SCHOOL_ID : option string;
  NEXT_PUBLIC_CONVERT_ACADEMIC_YEAR : option string
}.

(** [process.env.X || fallback] *)
Definition envOr (x : option string) (fallback : string) : string :=
  match x with
  | Some s => orString s fallback
  | None => fallback
  end.

Definition uploadApiUrl (env : ProcessEnv) : string :=
  envOr (NEXT_PUBLIC_PARSE_URL env)
    "https://parse.jivalearningsystem.com/api/upload-to-tmpfiles".
Definition convertApiUrl (env : ProcessEnv) : string :=
  envOr (NEXT_PUBLIC_CONVERT_API_URL env)
    "http://localhost:3000/api/v1/growth-card/convert-image".
Definition convertApiToken (env : ProcessEnv) : string :=
  envOr (NEXT_PUBLIC_CONVERT_API_TOKEN env) "".
Definition convertEntityType (env : ProcessEnv) : string :=
  envOr (NEXT_PUBLIC_CONVERT_ENTITY_TYPE env) "dkn_report".
Definition convertEntityId (env : ProcessEnv) : string :=
  envOr (NEXT_PUBLIC_CONVERT_ENTITY_ID env) "0".
Definition convertClassId (env : ProcessEnv) : string :=
  envOr (NEXT_PUBLIC_CONVERT_CLASS_ID env) "132".
Definition convertSchoolId (env : ProcessEnv) : string :=
  envOr (NEXT_PUBLIC_CONVERT_SCHOOL_ID env) "215".
Definition convertAcademicYear (env : ProcessEnv) : string :=
  envOr (NEXT_PUBLIC_CONVERT_ACADEMIC_YEAR env) "2025-2026".

(** ** The network *)

Record Response : Type := {
  status : Z;
  statusText : string;
  json : Completion JsValue
}.

(** [response.ok] *)
Definition ok (r : Response) : bool :=
  (200 <=? status r) && (status r <=? 299).

Inductive FormValue : Type :=
| FormText (s : string)
| FormFile (f : File).

Record Request : Type := {
  req_url : string;
  req_method : string;
  req_headers : list (string * string);
  req_body : list (string * FormValue)
}.

(** What the outside world answers to a request: a response, or the
    rejection of [fetch]. *)
Definition Network : Type := Request -> Completion Response.

(** [new Error(message)] *)
Definition newError (message : JsValue) : Thrown :=
  ErrorObject "Error"
    (match message with
     | JUndefined => ""
     | _ => Text.toString message
     end).

(** [promise.catch(() => ({}))] *)
Definition orEmptyObject (c : Completion JsValue) : JsValue :=
  match c with
  | Normal v => v
  | Throw _ => JObj []
  end.

(** The message of a failed upload (the [errorMessage] of [handleSubmit]). *)
Definition uploadErrorMessage (response : Response) (errorData : JsValue)
  : Completion JsValue :=
  detail <- Js.getProp errorData "detail" ;;
  if Js.toBoolean detail then
    match detail with
    | JArr subErrors =>
        parts <- Js.mapM
                   (fun d =>
                      msg <- Js.getProp d "msg" ;;
                      Normal (if Js.toBoolean msg then msg
                              else Text.stringifyValue d))
                   subErrors ;;
        Normal (JStr (Text.join ", " parts))
    | _ =>
        if (Js.typeOf detail =? "string")%string then Normal detail
        else Normal (Text.stringifyValue detail)
    end
  else
    Normal (JStr ("API error: " ++ Text.numberToString (status response)
                    ++ " " ++ statusText response)).

(** The message of a failed conversion:
    [convertError?.message || convertError?.detail || `Convert API error: ...`]. *)
Definition convertErrorMessage (response : Response) (convertError : JsValue)
  : Completion JsValue :=
  message <- Js.getPropOpt convertError "message" ;;
  if Js.toBoolean message then Normal message
  else
    detail <- Js.getPropOpt convertError "detail" ;;
    if Js.toBoolean detail then Normal detail
    else
      Normal (JStr ("Convert API error: "
                      ++ Text.numberToString (status response)
                      ++ " " ++ statusText response)).

(** ** The page: session state, canvas and handlers *)

Section Page.

Context {num : Type} {P : Pixels num}.

(** [Crop] and [PixelCrop] of react-image-crop. *)
Record Crop : Type := {
  crop_unit : string;
  crop_x : num;
  crop_y : num;
  crop_width : num;
  crop_height : num
}.

Definition buildDefaultCrop : Crop := {|
  crop_unit := "%";
  crop_width := ofZ 80;
  crop_height := ofZ 80;
  crop_x := ofZ 10;
  crop_y := ofZ 10
|}.

(** The component's state: the [useState] cells and the two refs. *)
Record Session : Type := {
  selectedImage : option File;
  previewUrl : option string;
  isSubmitting : bool;
  apiResponse : JsValue;
  convertResponse : JsValue;
  error : option string;
  fileInputValue : option string;
  imageRef : option Image;
  crop : Crop;
  completedCrop : option Crop;
  grayscale : Z;
  contrast : Z;
  rotation : Z
}.

(** The state of the first render: every [useState] initial value, no
    decoded image, the file input mounted and empty. *)
Definition firstLoad : Session := {|
  selectedImage := None;
  previewUrl := None;
  isSubmitting := false;
  apiResponse := JNull;
  convertResponse := JNull;
  error := None;
  fileInputValue := Some "";
  imageRef := None;
  crop := buildDefaultCrop;
  completedCrop := None;
  grayscale := 0;
  contrast := 100;
  rotation := 0
|}.

Definition setSelectedImage (v : option File) (s : Session) : Session :=
  {| selectedImage := v; previewUrl := previewUrl s;
     isSubmitting := isSubmitting s; apiResponse := apiResponse s;
     convertResponse := convertResponse s; error := error s;
     fileInputValue := fileInputValue s; imageRef := imageRef s;
     crop := crop s; completedCrop := completedCrop s;
     grayscale := grayscale s; contrast := contrast s; rotation := rotation s |}.

Definition setPreviewUrl (v : option string) (s : Session) : Session :=
  {| selectedImage := selectedImage s; previewUrl := v;
     isSubmitting := isSubmitting s; apiResponse := apiResponse s;
     convertResponse := convertResponse s; error := error s;
     fileInputValue := fileInputValue s; imageRef := imageRef s;
     crop := crop s; completedCrop := completedCrop s;
     grayscale := grayscale s; contrast := contrast s; rotation := rotation s |}.

Definition setIsSubmitting (v : bool) (s : Session) : Session :=
  {| selectedImage := selectedImage s; previewUrl := previewUrl s;
     isSubmitting := v; apiResponse := apiResponse s;
     convertResponse := convertResponse s; error := error s;
     fileInputValue := fileInputValue s; imageRef := imageRef s;
     crop := crop s; completedCrop := completedCrop s;
     grayscale := grayscale s; contrast := contrast s; rotation := rotation s |}.

Definition setApiResponse (v : JsValue) (s : Session) : Session :=
  {| selectedImage := selectedImage s; previewUrl := previewUrl s;
     isSubmitting := isSubmitting s; apiResponse := v;
     convertResponse := convertResponse s; error := error s;
     fileInputValue := fileInputValue s; imageRef := imageRef s;
     crop := crop s; completedCrop := completedCrop s;
     grayscale := grayscale s; contrast := contrast s; rotation := rotation s |}.

Definition setConvertResponse (v : JsValue) (s : Session) : Session :=
  {| selectedImage := selectedImage s; previewUrl := previewUrl s;
     isSubmitting := isSubmitting s; apiResponse := apiResponse s;
     convertResponse := v; error := error s;
     fileInputValue := fileInputValue s; imageRef := imageRef s;
     crop := crop s; completedCrop := completedCrop s;
     grayscale := grayscale s; contrast := contrast s; rotation := rotation s |}.

Definition setError (v : option string) (s : Session) : Session :=
  {| selectedImage := selectedImage s; previewUrl := previewUrl s;
     isSubmitting := isSubmitting s; apiResponse := apiResponse s;
     convertResponse := convertResponse s; error := v;
     fileInputValue := fileInputValue s; imageRef := imageRef s;
     crop := crop s; completedCrop := completedCrop s;
     grayscale := grayscale s; contrast := contrast s; rotation := rotation s |}.

Definition setCrop (v : Crop) (s : Session) : Session :=
  {| selectedImage := selectedImage s; previewUrl := previewUrl s;
     isSubmitting := isSubmitting s; apiResponse := apiResponse s;
     convertResponse := convertResponse s; error := error s;
     fileInputValue := fileInputValue s; imageRef := imageRef s;
     crop := v; completedCrop := completedCrop s;
     grayscale := grayscale s; contrast := contrast s; rotation := rotation s |}.

Definition setCompletedCrop (v : option Crop) (s : Session) : Session :=
  {| selectedImage := selectedImage s; previewUrl := previewUrl s;
     isSubmitting := isSubmitting s; apiResponse := apiResponse s;
     convertResponse := convertResponse s; error := error s;
     fileInputValue := fileInputValue s; imageRef := imageRef s;
     crop := crop s; completedCrop := v;
     grayscale := grayscale s; contrast := contrast s; rotation := rotation s |}.

Definition setGrayscale (v : Z) (s : Session) : Session :=
  {| selectedImage := selectedImage s; previewUrl := previewUrl s;
     isSubmitting := isSubmitting s; apiResponse := apiResponse s;
     convertResponse := convertResponse s; error := error s;
     fileInputValue := fileInputValue s; imageRef := imageRef s;
     crop := crop s; completedCrop := completedCrop s;
     grayscale := v; contrast := contrast s; rotation := rotation s |}.

Definition setContrast (v : Z) (s : Session) : Session :=
  {| selectedImage := selectedImage s; previewUrl := previewUrl s;
     isSubmitting := isSubmitting s; apiResponse := apiResponse s;
     convertResponse := convertResponse s; error := error s;
     fileInputValue := fileInputValue s; imageRef := imageRef s;
     crop := crop s; completedCrop := completedCrop s;
     grayscale := grayscale s; contrast := v; rotation := rotation s |}.

Definition setRotation (v : Z) (s : Session) : Session :=
  {| selectedImage := selectedImage s; previewUrl := previewUrl s;
     isSubmitting := isSubmitting s; apiResponse := apiResponse s;
     convertResponse := convertResponse s; error := error s;
     fileInputValue := fileInputValue s; imageRef := imageRef s;
     crop := crop s; completedCrop := completedCrop s;
     grayscale := grayscale s; contrast := contrast s; rotation := v |}.

(** [fileInputRef.current.value = v] *)
Definition setFileInputValue (v : string) (s : Session) : Session :=
  {| selectedImage := selectedImage s; previewUrl := previewUrl s;
     isSubmitting := isSubmitting s; apiResponse := apiResponse s;
     convertResponse := convertResponse s; error := error s;
     fileInputValue := Some v; imageRef := imageRef s;
     crop := crop s; completedCrop := completedCrop s;
     grayscale := grayscale s; contrast := contrast s; rotation := rotation s |}.

(** *** The canvas *)

(** [rotate] takes [degrees * Math.PI / 180]; the angle is kept in degrees. *)
Inductive Transform : Type :=
| Translate (tx ty : num)
| Rotate (degrees : Z).

(** What [save] and [restore] keep of a 2D context. *)
Record DrawingState : Type := {
  ds_filter : string;
  ds_transform : list Transform
}.

(** One [drawImage(image, sx, sy, sw, sh, dx, dy, dw, dh)] and the
    drawing state it ran under. *)
Record DrawImage : Type := {
  di_image : Image;
  di_sx : num;
  di_sy : num;
  di_sw : num;
  di_sh : num;
  di_dx : num;
  di_dy : num;
  di_dw : num;
  di_dh : num;
  di_state : DrawingState
}.

(** [width] and [height] of a canvas element are unsigned long attributes:
    they hold integers. *)
Record Canvas : Type := {
  canvas_width : Z;
  canvas_height : Z;
  ctx_state : DrawingState;
  ctx_saved : list DrawingState;
  ctx_drawn : list DrawImage
}.

(** [document.createElement("canvas")] *)
Definition createCanvas : Canvas := {|
  canvas_width := 300;
  canvas_height := 150;
  ctx_state := {| ds_filter := "none"; ds_transform := [] |};
  ctx_saved := [];
  ctx_drawn := []
|}.

(** What an unsigned long attribute with a default keeps of an assigned
    value: the value up to 2147483647, the default beyond. *)
Definition reflectUnsignedLong (default v : Z) : Z :=
  if v <=? 2147483647 then v else default.

(** [canvas.width = w]: [w] is converted to an unsigned long ([toUnsignedLong]:
    truncated toward zero, modulo 2^32) and reflected with default 300. *)
Definition setCanvasWidth (w : num) (c : Canvas) : Canvas :=
  {| canvas_width := reflectUnsignedLong 300 (toUnsignedLong w);
     canvas_height := canvas_height c;
     ctx_state := ctx_state c; ctx_saved := ctx_saved c;
     ctx_drawn := ctx_drawn c |}.

(** [canvas.height = h], likewise, with default 150. *)
Definition setCanvasHeight (h : num) (c : Canvas) : Canvas :=
  {| canvas_width := canvas_width c;
     canvas_height := reflectUnsignedLong 150 (toUnsignedLong h);
     ctx_state := ctx_state c; ctx_saved := ctx_saved c;
     ctx_drawn := ctx_drawn c |}.

Definition withState (st : DrawingState) (c : Canvas) : Canvas :=
  {| canvas_width := canvas_width c; canvas_height := canvas_height c;
     ctx_state := st; ctx_saved := ctx_saved c; ctx_drawn := ctx_drawn c |}.

(** [ctx.filter = f] *)
Definition setFilter (f : string) (c : Canvas) : Canvas :=
  withState {| ds_filter := f; ds_transform := ds_transform (ctx_state c) |} c.

Definition ctxSave (c : Canvas) : Canvas :=
  {| canvas_width := canvas_width c; canvas_height := canvas_height c;
     ctx_state := ctx_state c; ctx_saved := ctx_state c :: ctx_saved c;
     ctx_drawn := ctx_drawn c |}.

Definition ctxRestore (c : Canvas) : Canvas :=
  match ctx_saved c with
  | [] => c
  | st :: rest =>
      {| canvas_width := canvas_width c; canvas_height := canvas_height c;
         ctx_state := st; ctx_saved := rest; ctx_drawn := ctx_drawn c |}
  end.

Definition ctxTransform (t : Transform) (c : Canvas) : Canvas :=
  withState {| ds_filter := ds_filter (ctx_state c);
               ds_transform := ds_transform (ctx_state c) ++ [t] |} c.

Definition ctxDrawImage (img : Image) (sx sy sw sh dx dy dw dh : num)
  (c : Canvas) : Canvas :=
  {| canvas_width := canvas_width c; canvas_height := canvas_height c;
     ctx_state := ctx_state c; ctx_saved := ctx_saved c;
     ctx_drawn := ctx_drawn c ++
       [{| di_image := img; di_sx := sx; di_sy := sy; di_sw := sw;
           di_sh := sh; di_dx := dx; di_dy := dy; di_dw := dw; di_dh := dh;
           di_state := ctx_state c |}] |}.

(** What the browser decides: whether [getContext("2d")] yields a context,
    and what [toBlob] hands to its callback ([None] is [null]). *)
Record Browser : Type := {
  getContext2d : Canvas -> bool;
  toBlob : Canvas -> string -> option Blob
}.

(** *** The transform *)

Record Rect : Type := {
  rect_x : num;
  rect_y : num;
  rect_width : num;
  rect_height : num
}.

Definition scaleX (img : Image) : num :=
  div (ofZ (naturalWidth img)) (ofZ (img_width img)).
Definition scaleY (img : Image) : num :=
  div (ofZ (naturalHeight img)) (ofZ (img_height img)).

Definition activeCrop (st : Session) (img : Image) : Rect :=
  let whole := {| rect_x := ofZ 0; rect_y := ofZ 0;
                  rect_width := ofZ (img_width img);
                  rect_height := ofZ (img_height img) |} in
  match completedCrop st with
  | Some c =>
      if positive (crop_width c) && positive (crop_height c)
      then {| rect_x := crop_x c; rect_y := crop_y c;
              rect_width := crop_width c; rect_height := crop_height c |}
      else whole
  | None => whole
  end.

(** [((rotation % 360) + 360) % 360], with the truncating [%] of JavaScript. *)
Definition normalizedRotation (rotation : Z) : Z :=
  Z.rem (Z.rem rotation 360 + 360) 360.

Definition isRotated90or270 (rotation : Z) : bool :=
  (normalizedRotation rotation =? 90) || (normalizedRotation rotation =? 270).

Definition sourceWidth (st : Session) (img : Image) : num :=
  mul (rect_width (activeCrop st img)) (scaleX img).
Definition sourceHeight (st : Session) (img : Image) : num :=
  mul (rect_height (activeCrop st img)) (scaleY img).

(** The canvas as it is when [getContext] is called: created and sized. *)
Definition sizedCanvas (st : Session) (img : Image) : Canvas :=
  let canvas := createCanvas in
  let canvas :=
    setCanvasWidth (if isRotated90or270 (rotation st)
                    then sourceHeight st img else sourceWidth st img) canvas in
  setCanvasHeight (if isRotated90or270 (rotation st)
                   then sourceWidth st img else sourceHeight st img) canvas.

(** The drawing, from [ctx.filter = appliedFilter] to [ctx.restore()]. *)
Definition paint (st : Session) (img : Image) (canvas : Canvas) : Canvas :=
  let canvas := setFilter (appliedFilter (grayscale st) (contrast st)) canvas in
  let canvas := ctxSave canvas in
  let canvas :=
    ctxTransform (Translate (div (ofZ (canvas_width canvas)) (ofZ 2))
                            (div (ofZ (canvas_height canvas)) (ofZ 2))) canvas in
  let canvas := ctxTransform (Rotate (normalizedRotation (rotation st))) canvas in
  let canvas :=
    ctxDrawImage img
      (mul (rect_x (activeCrop st img)) (scaleX img))
      (mul (rect_y (activeCrop st img)) (scaleY img))
      (sourceWidth st img)
      (sourceHeight st img)
      (div (neg (sourceWidth st img)) (ofZ 2))
      (div (neg (sourceHeight st img)) (ofZ 2))
      (sourceWidth st img)
      (sourceHeight st img)
      canvas in
  ctxRestore canvas.

Definition processImageForUpload (browser : Browser) (st : Session)
  : Completion File :=
  match selectedImage st with
  | None => Throw (newError (JStr "No image selected"))
  | Some selected =>
      match imageRef st with
      | None => Normal selected
      | Some img =>
          let canvas := sizedCanvas st img in
          if negb (getContext2d browser canvas)
          then Throw (newError (JStr "Canvas is not supported in this browser"))
          else
            let canvas := paint st img canvas in
            match toBlob browser canvas
                    (orString (file_type selected) "image/jpeg") with
            | None => Throw (newError (JStr "Failed to process image"))
            | Some blob =>
                Normal {| file_name := file_name selected;
                          file_type :=
                            orString (file_type selected)
                              (orString (blob_type blob) "image/jpeg");
                          file_bits := blob_bits blob |}
            end
      end
  end.

(** *** Handlers *)

(** A handler runs on the component's state and logs the requests it sends. *)
Record World : Type := {
  session : Session;
  requests : list Request
}.

Definition Action (A : Type) : Type := World -> Completion A * World.

Definition ret {A} (a : A) : Action A := fun w => (Normal a, w).

Definition throw {A} (e : Thrown) : Action A := fun w => (Throw e, w).

Definition lift {A} (c : Completion A) : Action A := fun w => (c, w).

Definition andThen {A B} (c : Action A) (k : A -> Action B) : Action B :=
  fun w =>
    match c w with
    | (Normal a, w') => k a w'
    | (Throw e, w') => (Throw e, w')
    end.

(** [try { body } catch (err) { handler(err) } finally { finalizer }] *)
Definition tryCatchFinally (body : Action unit) (handler : Thrown -> Action unit)
  (finalizer : Action unit) : Action unit :=
  fun w =>
    let (caught, w2) :=
      match body w with
      | (Normal _, w1) => (Normal tt, w1)
      | (Throw e, w1) => handler e w1
      end in
    match finalizer w2 with
    | (Normal _, w3) => (caught, w3)
    | (Throw e, w3) => (Throw e, w3)
    end.

(** A state setter of React, or a write to a ref. *)
Definition update (f : Session -> Session) : Action unit :=
  fun w => (Normal tt, {| session := f (session w); requests := requests w |}).

(** [await fetch(...)] *)
Definition fetch (net : Network) (req : Request) : Action Response :=
  fun w => (net req, {| session := session w; requests := requests w ++ [req] |}).

Notation "x <- c ;; k" := (andThen c (fun x => k))
  (at level 61, c at next level, right associativity) : action_scope.
Notation "a >> b" := (andThen a (fun _ => b))
  (at level 60, right associativity) : action_scope.

Definition resetEditorState : Action unit :=
  (update (setCrop buildDefaultCrop) >>
   update (setCompletedCrop None) >>
   update (setGrayscale 0) >>
   update (setContrast 100) >>
   update (setRotation 0))%act.

Definition configurationMissing : string :=
  "Convert API configuration missing. Check environment variables.".

(** The request of [submitConvertImage]. *)
Definition convertRequest (env : ProcessEnv) (imageUrl : JsValue) : Request := {|
  req_url := convertApiUrl env;
  req_method := "POST";
  req_headers := [("Authorization", "Bearer " ++ convertApiToken env)];
  req_body :=
    [("image_url", FormText (Text.toString imageUrl));
     ("entityType", FormText (convertEntityType env));
     ("entityId", FormText (convertEntityId env));
     ("class_id", FormText (convertClassId env));
     ("school_id", FormText (convertSchoolId env));
     ("academic_year", FormText (convertAcademicYear env))]
|}.

Definition submitConvertImage (env : ProcessEnv) (net : Network)
  (imageUrl : JsValue) : Action JsValue :=
  (if (convertApiUrl env =? "")%string || (convertApiToken env =? "")%string
   then throw (newError (JStr configurationMissing))
   else
     convertResponse <- fetch net (convertRequest env imageUrl) ;;
     if negb (ok convertResponse)
     then
       let convertError := orEmptyObject (json convertResponse) in
       message <- lift (convertErrorMessage convertResponse convertError) ;;
       throw (newError message)
     else lift (json convertResponse))%act.

(** The request of the upload in [handleSubmit]. *)
Definition uploadRequest (env : ProcessEnv) (processedImage : File) : Request := {|
  req_url := uploadApiUrl env;
  req_method := "POST";
  req_headers := [];
  req_body := [("image", FormFile processedImage)]
|}.

(** The [try] block of [handleSubmit]; [st] is the state the handler
    closed over. *)
Definition submitBody (env : ProcessEnv) (net : Network) (browser : Browser)
  (st : Session) : Action unit :=
  (processedImage <- lift (processImageForUpload browser st) ;;
   response <- fetch net (uploadRequest env processedImage) ;;
   if negb (ok response)
   then
     let errorData := orEmptyObject (json response) in
     errorMessage <- lift (uploadErrorMessage response errorData) ;;
     throw (newError errorMessage)
   else
     data <- lift (json response) ;;
     update (setApiResponse data) >>
     (url <- lift (Js.getProp data "url") ;;
      if Js.toBoolean url
      then
        convertResult <- submitConvertImage env net url ;;
        update (setConvertResponse convertResult)
      else ret tt))%act.

(** [err instanceof Error ? err.message : "Failed to process image"] *)
Definition caughtMessage (err : Thrown) : string :=
  match err with
  | ErrorObject _ message => message
  | ThrownValue _ => "Failed to process image"
  end.

Definition handleSubmit (env : ProcessEnv) (net : Network) (browser : Browser)
  : Action unit :=
  fun w =>
    let st := session w in
    match selectedImage st with
    | None => ret tt w
    | Some _ =>
        (update (setIsSubmitting true) >>
         update (setError None) >>
         update (setConvertResponse JNull) >>
         tryCatchFinally
           (submitBody env net browser st)
           (fun err => update (setError (Some (caughtMessage err))))
           (update (setIsSubmitting false)))%act w
    end.

Definition handleReset : Action unit :=
  (update (setSelectedImage None) >>
   update (setPreviewUrl None) >>
   update (setApiResponse JNull) >>
   update (setConvertResponse JNull) >>
   update (setError None) >>
   resetEditorState >>
   (fun w =>
      match fileInputValue (session w) with
      | Some _ => update (setFileInputValue "") w
      | None => ret tt w
      end))%act.

(** The world a handler leaves behind. *)
Definition after (handler : Action unit) (w : World) : World :=
  snd (handler w).

End Page.

Arguments Crop : clear implicits.
Arguments Session : clear implicits.
Arguments World : clear implicits.
Arguments Canvas : clear implicits.
Arguments Browser : clear implicits.

(** ** The specification's vocabulary *)

Module Spec.

(** A non-null object: a JSON object or an array. *)
Definition isObject (v : JsValue) : bool :=
  match v with
  | JArr _ => true
  | JObj _ => true
  | _ => false
  end.

Definition isString (v : JsValue) : bool :=
  match v with
  | JStr _ => true
  | _ => false
  end.

(** The field [k] of [v]; absent ([JUndefined]) when [v] has no such field
    or is not a JSON object. *)
Definition field (v : JsValue) (k : string) : JsValue :=
  match v with
  | JObj props =>
      match Js.lookup k props with
      | Some x => x
      | None => JUndefined
      end
  | _ => JUndefined
  end.

(** "the top-level url field if present and of string type, else null" *)
Definition url (response : JsValue) : JsValue :=
  if isObject response && isString (field response "url")
  then field response "url"
  else JNull.

(** "data.metadata if data is a non-null object and metadata is a non-null
    object, else null" *)
Definition metadata (response : JsValue) : JsValue :=
  if isObject response && isObject (field response "data")
     && isObject (field (field response "data") "metadata")
  then field (field response "data") "metadata"
  else JNull.

(** The entries of [data.extracted_tables]; none on a structural mismatch. *)
Definition declaredTables (response : JsValue) : list JsValue :=
  if isObject response && isObject (field response "data")
  then
    match field (field response "data") "extracted_tables" with
    | JArr entries => entries
    | _ => []
    end
  else [].

(** "objects with both columns and rows as ordered sequences" *)
Definition wellFormedTable (entry : JsValue) : bool :=
  isObject entry && Js.isArray (field entry "columns")
  && Js.isArray (field entry "rows").

Definition asTable (entry : JsValue) : ConvertTable :=
  {| columns := field entry "columns"; rows := field entry "rows" |}.

Definition tables (response : JsValue) : list ConvertTable :=
  map asTable (filter wellFormedTable (declaredTables response)).

(** [null] or [undefined]: the values a property read throws on. *)
Definition nullish (v : JsValue) : bool :=
  match v with
  | JUndefined => true
  | JNull => true
  | _ => false
  end.

(** Grayscale intensity "clamped to [0,100]". *)
Definition clamp (lo hi x : Z) : Z :=
  if x <? lo then lo else if hi <? x then hi else x.

(** A sub-error "reduced to its msg field or stringified whole": the
    stringified whole whenever [msg] is absent or falsy. *)
Definition subErrorText (d : JsValue) : JsValue :=
  if Js.toBoolean (field d "msg") then field d "msg" else Text.stringifyValue d.

Definition statusMessage (prefix : string) (response : Response) : string :=
  prefix ++ Text.numberToString (status response) ++ " " ++ statusText response.

(** "its JSON stringification" *)
Definition jsonText (v : JsValue) : string :=
  match Text.stringify v with
  | Some s => s
  | None => ""
  end.

(** The message of a failed upload, by the body's [detail] (the body is
    [{}] when it does not parse): a list of sub-errors, a non-empty string,
    another truthy value, or nothing usable. *)
Definition uploadMessage (response : Response) : string :=
  match field (orEmptyObject (json response)) "detail" with
  | JArr subErrors => Text.join ", " (map subErrorText subErrors)
  | JStr s => if (s =? "")%string then statusMessage "API error: " response else s
  | detail =>
      if Js.toBoolean detail then jsonText detail
      else statusMessage "API error: " response
  end.

(** The fields of a session that the specification names: SourceImage and
    preview, EditState, UploadResult, ConvertResult, error. *)
Definition sessionFields {num : Type} (s : Session num) :=
  (selectedImage s, previewUrl s,
   (crop s, completedCrop s, grayscale s, contrast s, rotation s),
   apiResponse s, convertResponse s, error s).






(** A configured value: the variable when it is set and not empty, the
    default otherwise. *)
Definition configured (variable : option string) (default : string) : string :=
  match variable with
  | Some "" => default
  | Some value => value
  | None => default
  end.

(** Everything drawn on [canvas] was drawn under [filter]. *)
Definition drawnUnder {num : Type} (filter : string) (canvas : Canvas num) : Prop :=
  Forall (fun d => ds_filter (di_state d) = filter) (ctx_drawn canvas).

End Spec.

(** ** Sample inputs *)

Module Sample.

Definition file : File :=
  {| file_name := "a.png"; file_type := "image/png"; file_bits := "PNG" |}.

(** No variable of [process.env] is set. *)
Definition envUnset : ProcessEnv := {|
  NEXT_PUBLIC_PARSE_URL := None;
  NEXT_PUBLIC_CONVERT_API_URL := None;
  NEXT_PUBLIC_CONVERT_API_TOKEN := None;
  NEXT_PUBLIC_CONVERT_ENTITY_TYPE := None;
  NEXT_PUBLIC_CONVERT_ENTITY_ID := None;
  NEXT_PUBLIC_CONVERT_CLASS_ID := None;
  NEXT_PUBLIC_CONVERT_SCHOOL_ID := None;
  NEXT_PUBLIC_CONVERT_ACADEMIC_YEAR := None
|}.

(** Only the bearer token is set: the Convert URL is missing. *)
Definition envTokenOnly : ProcessEnv := {|
  NEXT_PUBLIC_PARSE_URL := None;
  NEXT_PUBLIC_CONVERT_API_URL := None;
  NEXT_PUBLIC_CONVERT_API_TOKEN := Some "secret";
  NEXT_PUBLIC_CONVERT_ENTITY_TYPE := None;
  NEXT_PUBLIC_CONVERT_ENTITY_ID := None;
  NEXT_PUBLIC_CONVERT_CLASS_ID := None;
  NEXT_PUBLIC_CONVERT_SCHOOL_ID := None;
  NEXT_PUBLIC_CONVERT_ACADEMIC_YEAR := None
|}.

(** An image was picked on the first render; its preview has not loaded. *)
Definition picked : World Q :=
  {| session := setSelectedImage (Some file) firstLoad; requests := [] |}.

Definition photo : Image :=
  {| naturalWidth := 800; naturalHeight := 600;
     img_width := 400; img_height := 300 |}.

(** The preview has loaded, and the user turned the image left once and
    pushed both sliders. *)
Definition edited : Session Q := {|
  selectedImage := Some file;
  previewUrl := Some "blob:preview";
  isSubmitting := false;
  apiResponse := JNull;
  convertResponse := JNull;
  error := None;
  fileInputValue := Some "a.png";
  imageRef := Some photo;
  crop := buildDefaultCrop;
  completedCrop := None;
  grayscale := 250;
  contrast := 120;
  rotation := -90
|}.

Definition browser : Browser Q := {|
  getContext2d := fun _ => true;
  toBlob := fun _ mime => Some {| blob_type := mime; blob_bits := "RASTER" |}
|}.

Definition uploaded : JsValue :=
  JObj [("status", JStr "success"); ("filename", JStr "a.png");
        ("url", JStr "http://x/a.png")].

Definition uploadedWithoutUrl : JsValue :=
  JObj [("status", JStr "success"); ("filename", JStr "a.png")].

Definition converted : JsValue :=
  JObj [("data",
         JObj [("extracted_tables",
                JArr [JObj [("columns", JArr [JStr "Day"; JStr "1"]);
                            ("rows", JArr [JArr [JStr "1"; JStr "0"]])];
                      JObj [("columns", JArr [JStr "Day"])]])])].

Definition respond (code : Z) (text : string) (body : JsValue) : Response :=
  {| status := code; statusText := text; json := Normal body |}.

(** A network whose upload endpoint answers [upload], any other [convert]. *)
Definition network (upload convert : Response) : Network :=
  fun req =>
    if (req_url req =? uploadApiUrl envUnset)%string
    then Normal upload
    else Normal convert.

Definition tooLarge : Response :=
  respond 413 "Payload Too Large"
    (JObj [("detail", JArr [JObj [("msg", JStr "too large")]])]).

Definition emptyDetail : Response :=
  respond 400 "Bad Request" (JObj [("detail", JStr "")]).

End Sample.

(** ** The other controls of the page *)

Section Controls.

Context {num : Type} {P : Pixels num}.

(** [onChange] of the file input; [file] is [e.target.files?.[0]] and
    [createObjectURL] the URL the browser mints for it. *)
Definition handleImageSelect (createObjectURL : File -> string)
  (file : option File) : @Action num unit :=
  match file with
  | Some f =>
      andThen (update (setSelectedImage (Some f))) (fun _ =>
      andThen (update (setPreviewUrl (Some (createObjectURL f)))) (fun _ =>
      andThen (update (setApiResponse JNull)) (fun _ =>
      andThen (update (setConvertResponse JNull)) (fun _ =>
      andThen (update (setError None)) (fun _ =>
      resetEditorState)))))
  | None => ret tt
  end.

(** The two rotate buttons: [setRotation((prev) => prev - 90)] and
    [setRotation((prev) => prev + 90)]. *)
Definition rotateLeft : @Action num unit :=
  update (fun s => setRotation (rotation s - 90) s).

Definition rotateRight : @Action num unit :=
  update (fun s => setRotation (rotation s + 90) s).

Inductive Turn : Type :=
| TurnLeft
| TurnRight.

Definition click (t : Turn) : @Action num unit :=
  match t with
  | TurnLeft => rotateLeft
  | TurnRight => rotateRight
  end.

(** A run of clicks on the rotate buttons, one after the other. *)
Fixpoint clickAll (turns : list Turn) : @Action num unit :=
  match turns with
  | [] => ret tt
  | t :: rest => andThen (click t) (fun _ => clickAll rest)
  end.

(** Which blocks of the page pass their guard: each is behind
    [{cell && (...)}], so React is handed the block when the cell is
    truthy; the submit button is disabled while [isSubmitting].  What a
    block renders of its cell, and whether that rendering succeeds, is not
    part of this record. *)
Record Sections : Type := {
  showsSelectedName : bool;
  showsEditor : bool;
  showsUploadResult : bool;
  showsConvertResult : bool;
  showsError : bool;
  submitDisabled : bool
}.

Definition truthyString (x : option string) : bool :=
  match x with
  | Some s => negb (s =? "")%string
  | None => false
  end.

Definition visibleSections (s : Session num) : Sections := {|
  showsSelectedName := match selectedImage s with Some _ => true | None => false end;
  showsEditor := truthyString (previewUrl s);
  showsUploadResult := Js.toBoolean (apiResponse s);
  showsConvertResult := Js.toBoolean (convertResponse s);
  showsError := truthyString (error s);
  submitDisabled := isSubmitting s
|}.

End Controls.

Module Outcome.

(** "message or detail of the body, or a generic status-code message":
    of the body as parsed, [{}] when it does not parse. *)
Definition convertMessage (response : Response) : string :=
  let body := orEmptyObject (json response) in
  if Js.toBoolean (Spec.field body "message")
  then Text.toString (Spec.field body "message")
  else if Js.toBoolean (Spec.field body "detail")
  then Text.toString (Spec.field body "detail")
  else Spec.statusMessage "Convert API error: " response.

(** The three errors of the transform. *)
Definition renderErrors : list Thrown :=
  [ErrorObject "Error" "No image selected";
   ErrorObject "Error" "Canvas is not supported in this browser";
   ErrorObject "Error" "Failed to process image"].

(** The edited sample as a world, a network that is down, answers that
    fail, and a browser without canvas. *)
Definition loaded : World Q :=
  {| session := Sample.edited; requests := [] |}.

(** The page as first rendered. *)
Definition fresh : World Q :=
  {| session := firstLoad; requests := [] |}.

(** A second file, of unknown type. *)
Definition otherFile : File :=
  {| file_name := "b.jpg"; file_type := ""; file_bits := "JPEG" |}.

Definition blobUrl (f : File) : string := "blob:" ++ file_name f.



Definition offline : Network :=
  fun _ => Throw (ErrorObject "TypeError" "Failed to fetch").

Definition refused : Response :=
  Sample.respond 401 "Unauthorized" (JObj [("message", JStr "Invalid token")]).

Definition emptyList : Response :=
  Sample.respond 422 "Unprocessable Entity" (JObj [("detail", JArr [])]).

Definition noCanvas : Browser Q := {|
  getContext2d := fun _ => false;
  toBlob := fun _ _ => None
|}.

End Outcome.

(** * Properties *)

(** ** Response presenter *)

Lemma getProp_field (v : JsValue) (k : string) :
  Spec.isObject v = true -> Js.getProp v k = Normal (Spec.field v k).
Proof. destruct v; simpl; congruence. Qed.

Lemma tableOfEntry_spec (entry : JsValue) :
  tableOfEntry entry =
  Normal (if Spec.wellFormedTable entry then Some (Spec.asTable entry) else None).
Proof.
  unfold tableOfEntry, Spec.wellFormedTable, Spec.asTable.
  destruct entry as [| | b | n | s | items | props]; simpl; try reflexivity.
  destruct (Js.lookup "columns" props) as [c |],
           (Js.lookup "rows" props) as [r |]; simpl;
    try destruct c; try destruct r; reflexivity.
Qed.

Lemma mapM_tableOfEntry (entries : list JsValue) :
  Js.mapM tableOfEntry entries =
  Normal (map (fun e => if Spec.wellFormedTable e
                        then Some (Spec.asTable e) else None) entries).
Proof.
  induction entries as [| e rest IH]; simpl; [reflexivity |].
  rewrite tableOfEntry_spec, IH. reflexivity.
Qed.

Lemma dropNulls_filter (entries : list JsValue) :
  dropNulls (map (fun e => if Spec.wellFormedTable e
                           then Some (Spec.asTable e) else None) entries) =
  map Spec.asTable (filter Spec.wellFormedTable entries).
Proof.
  induction entries as [| e rest IH]; simpl; [reflexivity |].
  destruct (Spec.wellFormedTable e); simpl; now rewrite IH.
Qed.

(** What [lacksData] decides, on every value. *)
Lemma lacksData_spec (response : JsValue) :
  lacksData response =
  Normal (negb (Spec.isObject response
                && Spec.isObject (Spec.field response "data"))).
Proof.
  unfold lacksData.
  destruct response as [| | b | n | s | items | props]; simpl; try reflexivity.
  - destruct b; reflexivity.
  - destruct (n =? 0); reflexivity.
  - destruct (s =? "")%string; reflexivity.
  - destruct (Js.lookup "data" props) as [d |]; simpl; [| reflexivity].
    destruct d as [| | b | n | s | items | ps]; reflexivity.
Qed.

(** C3: on every value, [extractConvertTables] returns without throwing,
    and what it returns is the entries of [data.extracted_tables] that are
    non-null objects with array [columns] and [rows], each as its columns
    and rows, in their order; a response that is no object, whose [data]
    is no object, or whose [extracted_tables] is no array gives none. *)
Theorem extractConvertTables_correct (response : JsValue) :
  extractConvertTables response = Normal (Spec.tables response)
  /\ (Spec.isObject response = false
      \/ Spec.isObject (Spec.field response "data") = false
      \/ Js.isArray (Spec.field (Spec.field response "data") "extracted_tables")
         = false ->
      extractConvertTables response = Normal []).
Proof.
  assert (E : extractConvertTables response = Normal (Spec.tables response)).
  { unfold extractConvertTables, Spec.tables, Spec.declaredTables.
    rewrite lacksData_spec. simpl.
    destruct (Spec.isObject response) eqn:Hr; simpl; [| reflexivity].
    destruct (Spec.isObject (Spec.field response "data")) eqn:Hd; simpl;
      [| reflexivity].
    rewrite (getProp_field response "data" Hr). simpl.
    rewrite (getProp_field _ "extracted_tables" Hd). simpl.
    destruct (Spec.field (Spec.field response "data") "extracted_tables");
      try reflexivity.
    rewrite mapM_tableOfEntry. simpl. now rewrite dropNulls_filter. }
  split; [exact E |].
  intros H. rewrite E. unfold Spec.tables, Spec.declaredTables.
  destruct H as [H | [H | H]].
  - now rewrite H.
  - rewrite H. now rewrite andb_false_r.
  - destruct (Spec.isObject response && _); [| reflexivity].
    destruct (Spec.field (Spec.field response "data") "extracted_tables");
      try reflexivity; discriminate.
Qed.

(** C7: on every value, neither extractor throws; [extractConvertUrl]
    returns the [url] field when the response is a non-null object and the
    field is a string, and [null] otherwise; [extractConvertMetadata]
    returns [data.metadata] when response, [data] and [metadata] are
    non-null objects, and [null] otherwise. *)
Theorem extractConvertUrl_Metadata_correct (response : JsValue) :
  extractConvertUrl response = Normal (Spec.url response)
  /\ extractConvertMetadata response = Normal (Spec.metadata response).
Proof.
  split.
  - unfold extractConvertUrl, Spec.url.
    destruct response as [| | b | n | s | items | props]; simpl; try reflexivity.
    + destruct b; reflexivity.
    + destruct (n =? 0); reflexivity.
    + destruct (s =? "")%string; reflexivity.
    + destruct (Js.lookup "url" props) as [u |]; simpl; [| reflexivity].
      destruct u; reflexivity.
  - unfold extractConvertMetadata, Spec.metadata.
    rewrite lacksData_spec. simpl.
    destruct (Spec.isObject response) eqn:Hr; simpl; [| reflexivity].
    destruct (Spec.isObject (Spec.field response "data")) eqn:Hd; simpl;
      [| reflexivity].
    rewrite (getProp_field response "data" Hr). simpl.
    rewrite (getProp_field _ "metadata" Hd). simpl.
    destruct (Spec.field (Spec.field response "data") "metadata")
      as [| | b | n | s | items | props]; simpl; try reflexivity.
    + destruct b; reflexivity.
    + destruct (n =? 0); reflexivity.
    + destruct (s =? "")%string; reflexivity.
Qed.

(** The spec's two examples of table extraction: a well-formed entry is
    returned with its columns and rows, a second entry without [rows] is
    dropped. *)
Example extractConvertTables_sample :
  extractConvertTables Sample.converted =
  Normal [{| columns := JArr [JStr "Day"; JStr "1"];
             rows := JArr [JArr [JStr "1"; JStr "0"]] |}].
Proof. reflexivity. Qed.

(** ** Transform engine *)

Lemma normalizedRotation_mod (r : Z) :
  normalizedRotation r = r mod 360 /\ 0 <= normalizedRotation r < 360.
Proof.
  unfold normalizedRotation.
  Z.to_euclidean_division_equations. lia.
Qed.

Section Transform.

Context {num : Type} {P : Pixels num}.

(** Painting leaves the size of the canvas alone. *)
Lemma paint_size (st : Session num) (img : Image) (canvas : Canvas num) :
  canvas_width (paint st img canvas) = canvas_width canvas
  /\ canvas_height (paint st img canvas) = canvas_height canvas.
Proof. split; reflexivity. Qed.



(** C5: for every integer grayscale and contrast, the filter set on the
    context and in force for the drawing is
    [grayscale(g%) contrast(c%)] with [g] the grayscale clamped into
    [0, 100] and [c] the contrast as given; -10 gives 0 and 250 gives 100. *)
Theorem applied_filter_clamps_grayscale (st : Session num) (img : Image) :
  let g := Spec.clamp 0 100 (grayscale st) in
  let canvas := paint st img (sizedCanvas st img) in
  0 <= g <= 100
  /\ appliedFilter (grayscale st) (contrast st) =
     "grayscale(" ++ Text.numberToString g ++ "%) contrast("
       ++ Text.numberToString (contrast st) ++ "%)"
  /\ ds_filter (ctx_state canvas) = appliedFilter (grayscale st) (contrast st)
  /\ ctx_drawn canvas <> []
  /\ Spec.drawnUnder (appliedFilter (grayscale st) (contrast st)) canvas
  /\ appliedFilter (-10) (contrast st) =
     "grayscale(0%) contrast(" ++ Text.numberToString (contrast st) ++ "%)"
  /\ appliedFilter 250 (contrast st) =
     "grayscale(100%) contrast(" ++ Text.numberToString (contrast st) ++ "%)".
Proof.
  intros g canvas.
  assert (Hg : Z.max 0 (Z.min 100 (grayscale st)) = g).
  { unfold g, Spec.clamp.
    destruct (Z.ltb_spec (grayscale st) 0); [lia |].
    destruct (Z.ltb_spec 100 (grayscale st)); lia. }
  split; [lia |].
  split; [unfold appliedFilter; now rewrite Hg |].
  split; [reflexivity |].
  split; [discriminate |].
  split; [| split; reflexivity].
  unfold Spec.drawnUnder. simpl. constructor; [reflexivity | constructor].
Qed.

End Transform.

(** The edited sample: turned left once (270 after normalization), the
    800x600 photo shown at 400x300 comes out 600 wide and 800 high, under
    full grayscale. *)
Example rendered_sample :
  let canvas := paint Sample.edited Sample.photo
                  (sizedCanvas Sample.edited Sample.photo) in
  normalizedRotation (rotation Sample.edited) = 270
  /\ canvas_width canvas = 600
  /\ canvas_height canvas = 800
  /\ ds_filter (ctx_state canvas) = "grayscale(100%) contrast(120%)".
Proof. repeat split. Qed.

(** ** Upload orchestrator *)

Ltac run_handler :=
  unfold after, handleSubmit, handleReset, resetEditorState, tryCatchFinally,
    submitBody, submitConvertImage, andThen, lift, fetch, update, throw, ret.

(** Closes a goal on the request log: some list extends it. *)
Ltac logged :=
  eexists; split; [rewrite <- ?app_assoc; reflexivity | reflexivity].

Lemma getProp_not_nullish (v : JsValue) (k : string) :
  Spec.nullish v = false -> Js.getProp v k = Normal (Spec.field v k).
Proof. destruct v; simpl; congruence. Qed.

Lemma truthy_field_not_nullish (v : JsValue) (k : string) :
  Js.toBoolean (Spec.field v k) = true -> Spec.nullish v = false.
Proof. destruct v; simpl; congruence. Qed.

Lemma envOr_not_empty (x : option string) (fallback : string) :
  fallback <> "" -> (envOr x fallback =? "")%string = false.
Proof.
  intros Hf. apply String.eqb_neq. unfold envOr, orString.
  destruct x as [s |]; [| exact Hf].
  destruct (s =? "")%string eqn:E; [exact Hf |].
  now apply String.eqb_neq.
Qed.

Lemma convertApiUrl_not_empty (env : ProcessEnv) :
  (convertApiUrl env =? "")%string = false.
Proof. apply envOr_not_empty. discriminate. Qed.

Section Orchestrator.

Context {num : Type} {P : Pixels num}.

Variables (env : ProcessEnv) (net : Network) (browser : Browser num).

(** X18: from any state, [handleReset] puts the cells it writes back to
    their first-load values: no image and no preview, the default crop with
    no completed crop, grayscale 0, contrast 100, rotation 0, no upload
    result, no convert result, no error; the file input is emptied and no
    request is sent.  It does not write the submitting flag nor the decoded
    image reference: they are what they were. *)
Theorem reset_returns_to_first_load (w : World num) :
  let s := session (after handleReset w) in
  Spec.sessionFields s = Spec.sessionFields firstLoad
  /\ selectedImage s = None
  /\ previewUrl s = None
  /\ crop s = buildDefaultCrop
  /\ completedCrop s = None
  /\ (grayscale s = 0 /\ contrast s = 100 /\ rotation s = 0)
  /\ apiResponse s = JNull
  /\ convertResponse s = JNull
  /\ error s = None
  /\ fileInputValue s = option_map (fun _ => "") (fileInputValue (session w))
  /\ requests (after handleReset w) = requests w
  /\ isSubmitting s = isSubmitting (session w)
  /\ imageRef s = imageRef (session w).
Proof.
  run_handler. simpl.
  destruct (fileInputValue (session w)) eqn:E; simpl; rewrite ?E;
    repeat split; reflexivity.
Qed.

(** C10: with an image selected and no decoded image element, the
    transform returns the selected file itself, and the upload request of
    the submit carries that very file. *)
Theorem unloaded_preview_uploads_original (w : World num) (selected : File) :
  selectedImage (session w) = Some selected ->
  imageRef (session w) = None ->
  processImageForUpload browser (session w) = Normal selected
  /\ exists others,
       requests (after (handleSubmit env net browser) w) =
       (requests w ++ uploadRequest env selected :: others)%list
       /\ req_body (uploadRequest env selected) = [("image", FormFile selected)].
Proof.
  intros Hsel Href.
  assert (Hproc : processImageForUpload browser (session w) = Normal selected).
  { unfold processImageForUpload. now rewrite Hsel, Href. }
  split; [exact Hproc |].
  run_handler. rewrite Hsel. cbn. rewrite Hproc. cbn.
  destruct (net (uploadRequest env selected)) as [response | e]; cbn.
  - destruct (ok response); cbn.
    + destruct (json response) as [data | e]; cbn; [| logged].
      destruct (Js.getProp data "url") as [u | e]; cbn; [| logged].
      destruct (Js.toBoolean u); cbn; [| logged].
      destruct ((convertApiUrl env =? "")%string
                || (convertApiToken env =? "")%string); cbn; [logged |].
      destruct (net (convertRequest env u)) as [cr | e]; cbn; [| logged].
      destruct (ok cr); cbn.
      * destruct (json cr); cbn; logged.
      * destruct (convertErrorMessage cr (orEmptyObject (json cr))); cbn; logged.
    + destruct (uploadErrorMessage response (orEmptyObject (json response)));
        cbn; logged.
  - logged.
Qed.

(** C6, amended: when the upload answers 2xx with a parsed body other
    than [null] whose [url] is absent, empty or falsy in another way
    ([null], [0], [false]), the submit ends with the body recorded as
    upload result, no error, no convert result, the submitting flag down,
    and the upload as its only request. *)
Theorem upload_without_url_stops_at_done
  (w : World num) (selected processed : File) (response : Response)
  (body : JsValue) :
  selectedImage (session w) = Some selected ->
  processImageForUpload browser (session w) = Normal processed ->
  net (uploadRequest env processed) = Normal response ->
  ok response = true ->
  json response = Normal body ->
  Spec.nullish body = false ->
  Js.toBoolean (Spec.field body "url") = false ->
  let w' := after (handleSubmit env net browser) w in
  apiResponse (session w') = body
  /\ error (session w') = None
  /\ convertResponse (session w') = JNull
  /\ isSubmitting (session w') = false
  /\ requests w' = (requests w ++ [uploadRequest env processed])%list.
Proof.
  intros Hsel Hproc Hnet Hok Hjson Hbody Hurl w'. subst w'.
  run_handler. rewrite Hsel. cbn. rewrite Hproc, Hnet, Hok. cbn. rewrite Hjson.
  rewrite (getProp_not_nullish body "url" Hbody).
  rewrite Hurl. cbn. auto.
Qed.

(** C2, amended: when the upload answers 2xx with a parsed body whose
    [url] is a non-empty string and a bearer token is configured, the
    submit sends, after the upload, exactly one request: a POST to the
    Convert URL with the header [Authorization: Bearer <token>] and the
    form fields [image_url] (that url), [entityType], [entityId],
    [class_id], [school_id] and [academic_year]. *)
Theorem upload_url_forwarded_to_convert
  (w : World num) (selected processed : File) (response : Response)
  (body : JsValue) (u : string) :
  selectedImage (session w) = Some selected ->
  processImageForUpload browser (session w) = Normal processed ->
  net (uploadRequest env processed) = Normal response ->
  ok response = true ->
  json response = Normal body ->
  Spec.field body "url" = JStr u ->
  u <> "" ->
  convertApiToken env <> "" ->
  requests (after (handleSubmit env net browser) w) =
  (requests w ++
   [uploadRequest env processed;
    {| req_url := convertApiUrl env;
       req_method := "POST";
       req_headers :=
         [("Authorization", ("Bearer " ++ convertApiToken env)%string)];
       req_body :=
         [("image_url", FormText u);
          ("entityType", FormText (convertEntityType env));
          ("entityId", FormText (convertEntityId env));
          ("class_id", FormText (convertClassId env));
          ("school_id", FormText (convertSchoolId env));
          ("academic_year", FormText (convertAcademicYear env))] |}])%list.
Proof.
  intros Hsel Hproc Hnet Hok Hjson Hurl Hu Htoken.
  assert (Htruthy : Js.toBoolean (Spec.field body "url") = true).
  { rewrite Hurl. simpl. apply String.eqb_neq in Hu. now rewrite Hu. }
  apply String.eqb_neq in Htoken.
  run_handler. rewrite Hsel. cbn. rewrite Hproc, Hnet, Hok. cbn. rewrite Hjson.
  rewrite (getProp_not_nullish body "url"
             (truthy_field_not_nullish body "url" Htruthy)).
  rewrite Htruthy, convertApiUrl_not_empty, Htoken. cbn.
  rewrite Hurl. unfold convertRequest. simpl Text.toString.
  match goal with
  | |- context [net ?r] => destruct (net r) as [cr | e]; cbn
  end.
  - destruct (ok cr); cbn.
    + destruct (json cr); cbn; now rewrite <- app_assoc.
    + destruct (convertErrorMessage cr (orEmptyObject (json cr))); cbn;
        now rewrite <- app_assoc.
  - now rewrite <- app_assoc.
Qed.

(** C9, amended: when the upload handed back a url and no bearer token
    is configured, the submit fails with the configuration message and
    sends no Convert request; that message is none of the status-code
    messages of an HTTP error.  The Convert URL cannot be missing: unset
    or empty, it is the localhost default. *)
Theorem missing_token_fails_before_convert
  (w : World num) (selected processed : File) (response : Response)
  (body : JsValue) :
  selectedImage (session w) = Some selected ->
  processImageForUpload browser (session w) = Normal processed ->
  net (uploadRequest env processed) = Normal response ->
  ok response = true ->
  json response = Normal body ->
  Js.toBoolean (Spec.field body "url") = true ->
  convertApiToken env = "" ->
  let w' := after (handleSubmit env net browser) w in
  error (session w') = Some configurationMissing
  /\ requests w' = (requests w ++ [uploadRequest env processed])%list
  /\ convertResponse (session w') = JNull
  /\ isSubmitting (session w') = false
  /\ (forall r : Response,
        configurationMissing <> Spec.statusMessage "Convert API error: " r
        /\ configurationMissing <> Spec.statusMessage "API error: " r)
  /\ convertApiUrl env <> "".
Proof.
  intros Hsel Hproc Hnet Hok Hjson Htruthy Htoken w'. subst w'.
  run_handler. rewrite Hsel. cbn. rewrite Hproc, Hnet, Hok. cbn. rewrite Hjson.
  rewrite (getProp_not_nullish body "url"
             (truthy_field_not_nullish body "url" Htruthy)).
  rewrite Htruthy, Htoken. rewrite orb_true_r. cbn.
  repeat split; try discriminate.
  apply String.eqb_neq, convertApiUrl_not_empty.
Qed.

End Orchestrator.

(** *** The message of a failed upload *)

Lemma mapM_subErrors (subErrors : list JsValue) :
  forallb (fun d => negb (Spec.nullish d)) subErrors = true ->
  Js.mapM
    (fun d =>
       msg <- Js.getProp d "msg" ;;
       Normal (if Js.toBoolean msg then msg else Text.stringifyValue d))
    subErrors
  = Normal (map Spec.subErrorText subErrors).
Proof.
  induction subErrors as [| d rest IH]; simpl; [reflexivity |].
  intros H. apply andb_prop in H as [Hd Hrest].
  apply negb_true_iff in Hd.
  rewrite (getProp_not_nullish d "msg" Hd). simpl.
  rewrite (IH Hrest). reflexivity.
Qed.

(** The thrown error of the failure branch carries [Spec.uploadMessage]. *)
Lemma uploadErrorMessage_spec (response : Response) :
  Spec.nullish (orEmptyObject (json response)) = false ->
  (forall subErrors,
      Spec.field (orEmptyObject (json response)) "detail" = JArr subErrors ->
      forallb (fun d => negb (Spec.nullish d)) subErrors = true) ->
  exists m,
    uploadErrorMessage response (orEmptyObject (json response)) = Normal m
    /\ newError m = ErrorObject "Error" (Spec.uploadMessage response).
Proof.
  intros Hbody Hsub. unfold uploadErrorMessage, Spec.uploadMessage.
  rewrite (getProp_not_nullish _ "detail" Hbody). simpl.
  destruct (Spec.field (orEmptyObject (json response)) "detail")
    as [| | b | n | s | subErrors | props] eqn:Hdetail; simpl.
  - eexists; split; reflexivity.
  - eexists; split; reflexivity.
  - destruct b; eexists; split; reflexivity.
  - destruct (n =? 0); simpl; eexists; split; reflexivity.
  - destruct (s =? "")%string; simpl; eexists; split; reflexivity.
  - rewrite (mapM_subErrors subErrors (Hsub subErrors eq_refl)). simpl.
    eexists; split; reflexivity.
  - eexists; split; reflexivity.
Qed.

Section UploadFailure.

Context {num : Type} {P : Pixels num}.

Variables (env : ProcessEnv) (net : Network) (browser : Browser num).

(** C4, amended: when the upload answers non-2xx, the submit fails with
    the message [Spec.uploadMessage]: the sub-errors of an array [detail],
    each its [msg] when that is truthy and its JSON text otherwise, joined
    by a comma and a space; a non-empty string [detail] itself; the JSON
    text of any other truthy [detail]; and [API error: <status>
    <statusText>] when the body does not parse or [detail] is absent or
    falsy.  This is for a body that is not [null], with no [null]
    sub-error, in which every number is a safe integer and no object has a
    key [toString].  No Convert request is sent. *)
Theorem upload_error_message
  (w : World num) (selected processed : File) (response : Response) :
  selectedImage (session w) = Some selected ->
  processImageForUpload browser (session w) = Normal processed ->
  net (uploadRequest env processed) = Normal response ->
  ok response = false ->
  Spec.nullish (orEmptyObject (json response)) = false ->
  Text.printable (orEmptyObject (json response)) = true ->
  (forall subErrors,
      Spec.field (orEmptyObject (json response)) "detail" = JArr subErrors ->
      forallb (fun d => negb (Spec.nullish d)) subErrors = true) ->
  let w' := after (handleSubmit env net browser) w in
  error (session w') = Some (Spec.uploadMessage response)
  /\ isSubmitting (session w') = false
  /\ requests w' = (requests w ++ [uploadRequest env processed])%list.
Proof.
  intros Hsel Hproc Hnet Hok Hbody _ Hsub w'. subst w'.
  destruct (uploadErrorMessage_spec response Hbody Hsub) as (m & Hm & Herr).
  run_handler. rewrite Hsel. cbn. rewrite Hproc, Hnet, Hok. cbn.
  unfold newError in Herr. injection Herr as Herr.
  rewrite Hm. cbn. rewrite Herr. auto.
Qed.

End UploadFailure.

(** ** The properties at the sample inputs *)

(** C2 as stated fails: nothing of [process.env] set, the upload answers
    200 with [url] "http://x/a.png", and the upload stays the only
    request: no Convert call is issued. *)
Lemma convert_call_without_token_counterexample :
  let answer := Sample.respond 200 "OK" Sample.uploaded in
  let w' := after (handleSubmit Sample.envUnset
                     (Sample.network answer (Sample.respond 200 "OK" Sample.converted))
                     Sample.browser) Sample.picked in
  ok answer = true
  /\ json answer = Normal Sample.uploaded
  /\ Spec.field Sample.uploaded "url" = JStr "http://x/a.png"
  /\ requests w' = [uploadRequest Sample.envUnset Sample.file]
  /\ error (session w') = Some configurationMissing.
Proof. repeat split. Qed.

Lemma upload_url_forwarded_to_convert_witness :
  requests
    (after (handleSubmit Sample.envTokenOnly
              (Sample.network (Sample.respond 200 "OK" Sample.uploaded)
                 (Sample.respond 200 "OK" Sample.converted))
              Sample.browser) Sample.picked) =
  [uploadRequest Sample.envTokenOnly Sample.file;
   {| req_url := "http://localhost:3000/api/v1/growth-card/convert-image";
      req_method := "POST";
      req_headers := [("Authorization", "Bearer secret")];
      req_body :=
        [("image_url", FormText "http://x/a.png");
         ("entityType", FormText "dkn_report");
         ("entityId", FormText "0");
         ("class_id", FormText "132");
         ("school_id", FormText "215");
         ("academic_year", FormText "2025-2026")] |}].
Proof.
  refine (upload_url_forwarded_to_convert Sample.envTokenOnly
            (Sample.network (Sample.respond 200 "OK" Sample.uploaded)
               (Sample.respond 200 "OK" Sample.converted))
            Sample.browser Sample.picked Sample.file Sample.file
            (Sample.respond 200 "OK" Sample.uploaded) Sample.uploaded
            "http://x/a.png" eq_refl eq_refl eq_refl eq_refl eq_refl eq_refl _ _);
    discriminate.
Defined.

(** C4 as stated fails: the upload answers 400 with [detail] the empty
    string; the message is the status-code one, not that string. *)
Lemma upload_error_empty_detail_counterexample :
  let w' := after (handleSubmit Sample.envUnset
                     (Sample.network Sample.emptyDetail Sample.emptyDetail)
                     Sample.browser) Sample.picked in
  ok Sample.emptyDetail = false
  /\ json Sample.emptyDetail = Normal (JObj [("detail", JStr "")])
  /\ error (session w') = Some "API error: 400 Bad Request"
  /\ error (session w') <> Some "".
Proof. repeat split. discriminate. Qed.

(** The spec's example: [{detail:[{msg:"too large"}]}] gives "too large". *)
Lemma upload_error_message_witness :
  let w' := after (handleSubmit Sample.envUnset
                     (Sample.network Sample.tooLarge Sample.tooLarge)
                     Sample.browser) Sample.picked in
  error (session w') = Some "too large"
  /\ isSubmitting (session w') = false
  /\ requests w' = [uploadRequest Sample.envUnset Sample.file].
Proof.
  refine (upload_error_message Sample.envUnset
            (Sample.network Sample.tooLarge Sample.tooLarge)
            Sample.browser Sample.picked Sample.file Sample.file
            Sample.tooLarge eq_refl eq_refl eq_refl eq_refl eq_refl eq_refl _).
  intros subErrors H. injection H as <-. reflexivity.
Defined.

Lemma upload_without_url_stops_at_done_witness :
  let w' := after (handleSubmit Sample.envTokenOnly
                     (Sample.network
                        (Sample.respond 200 "OK" Sample.uploadedWithoutUrl)
                        (Sample.respond 200 "OK" Sample.converted))
                     Sample.browser) Sample.picked in
  apiResponse (session w') = Sample.uploadedWithoutUrl
  /\ error (session w') = None
  /\ convertResponse (session w') = JNull
  /\ isSubmitting (session w') = false
  /\ requests w' = [uploadRequest Sample.envTokenOnly Sample.file].
Proof.
  exact (upload_without_url_stops_at_done Sample.envTokenOnly
           (Sample.network (Sample.respond 200 "OK" Sample.uploadedWithoutUrl)
              (Sample.respond 200 "OK" Sample.converted))
           Sample.browser Sample.picked Sample.file Sample.file
           (Sample.respond 200 "OK" Sample.uploadedWithoutUrl)
           Sample.uploadedWithoutUrl
           eq_refl eq_refl eq_refl eq_refl eq_refl eq_refl eq_refl).
Defined.

(** C6 as stated fails: the upload answers 200 with the body [null], in
    which no [url] is present; the submit ends with an error, the
    TypeError of reading [url]. *)
Lemma null_upload_body_counterexample :
  let answer := Sample.respond 200 "OK" JNull in
  let w' := after (handleSubmit Sample.envTokenOnly
                     (Sample.network answer (Sample.respond 200 "OK" Sample.converted))
                     Sample.browser) Sample.picked in
  ok answer = true
  /\ json answer = Normal JNull
  /\ Spec.field JNull "url" = JUndefined
  /\ error (session w') =
     Some "Cannot read properties of null (reading 'url')"
  /\ error (session w') <> None.
Proof. repeat split. discriminate. Qed.

(** C9 as stated fails: the Convert URL is missing from the configuration
    and the token is set; the Convert request is issued all the same, to
    the default URL, and the submit ends without an error. *)
Lemma missing_convert_url_counterexample :
  let w' := after (handleSubmit Sample.envTokenOnly
                     (Sample.network (Sample.respond 200 "OK" Sample.uploaded)
                        (Sample.respond 200 "OK" Sample.converted))
                     Sample.browser) Sample.picked in
  NEXT_PUBLIC_CONVERT_API_URL Sample.envTokenOnly = None
  /\ requests w' =
     [uploadRequest Sample.envTokenOnly Sample.file;
      convertRequest Sample.envTokenOnly (JStr "http://x/a.png")]
  /\ req_url (convertRequest Sample.envTokenOnly (JStr "http://x/a.png")) =
     "http://localhost:3000/api/v1/growth-card/convert-image"
  /\ error (session w') = None
  /\ convertResponse (session w') = Sample.converted.
Proof. repeat split. Qed.

Lemma missing_token_fails_before_convert_witness :
  let w' := after (handleSubmit Sample.envUnset
                     (Sample.network (Sample.respond 200 "OK" Sample.uploaded)
                        (Sample.respond 200 "OK" Sample.converted))
                     Sample.browser) Sample.picked in
  error (session w') =
  Some "Convert API configuration missing. Check environment variables."
  /\ requests w' = [uploadRequest Sample.envUnset Sample.file].
Proof.
  pose proof (missing_token_fails_before_convert Sample.envUnset
                (Sample.network (Sample.respond 200 "OK" Sample.uploaded)
                   (Sample.respond 200 "OK" Sample.converted))
                Sample.browser Sample.picked Sample.file Sample.file
                (Sample.respond 200 "OK" Sample.uploaded) Sample.uploaded
                eq_refl eq_refl eq_refl eq_refl eq_refl eq_refl eq_refl)
    as (Herr & Hreq & _).
  split; [exact Herr | exact Hreq].
Defined.

Lemma unloaded_preview_uploads_original_witness :
  processImageForUpload Sample.browser (session Sample.picked)
  = Normal Sample.file.
Proof.
  exact (proj1 (unloaded_preview_uploads_original Sample.envUnset
                  (Sample.network (Sample.respond 200 "OK" Sample.uploaded)
                     (Sample.respond 200 "OK" Sample.converted))
                  Sample.browser Sample.picked Sample.file eq_refl eq_refl)).
Defined.

(** ** More of the transform *)

Lemma normalizedRotation_residue (r r' : Z) :
  r mod 360 = r' mod 360 -> normalizedRotation r = normalizedRotation r'.
Proof.
  intros H.
  destruct (normalizedRotation_mod r) as [-> _].
  destruct (normalizedRotation_mod r') as [-> _]. exact H.
Qed.

Lemma quarter_turn_flips (r d : Z) :
  r mod 90 = 0 -> d = 90 \/ d = -90 ->
  (r + d) mod 90 = 0
  /\ isRotated90or270 (r + d) = negb (isRotated90or270 r).
Proof.
  intros Hr Hd. unfold isRotated90or270.
  destruct (normalizedRotation_mod r) as [-> _].
  destruct (normalizedRotation_mod (r + d)) as [-> _].
  split.
  - Z.to_euclidean_division_equations. lia.
  - destruct (Z.eqb_spec (r mod 360) 90), (Z.eqb_spec (r mod 360) 270),
      (Z.eqb_spec ((r + d) mod 360) 90), (Z.eqb_spec ((r + d) mod 360) 270);
      simpl; try reflexivity; exfalso;
      Z.to_euclidean_division_equations; lia.
Qed.

Section MoreTransform.

Context {num : Type} {P : Pixels num}.

(** X1: the transform reads the rotation only modulo 360: two sessions
    that differ in nothing but rotations of equal residue give the very
    same file, canvas included. *)
Theorem rotation_matters_modulo_360
  (browser : Browser num) (st : Session num) (img : Image) (r r' : Z) :
  r mod 360 = r' mod 360 ->
  paint (setRotation r st) img (sizedCanvas (setRotation r st) img) =
  paint (setRotation r' st) img (sizedCanvas (setRotation r' st) img)
  /\ processImageForUpload browser (setRotation r st) =
     processImageForUpload browser (setRotation r' st).
Proof.
  intros H. apply normalizedRotation_residue in H.
  assert (S : forall i, sizedCanvas (setRotation r st) i =
                        sizedCanvas (setRotation r' st) i).
  { intros i.
    unfold sizedCanvas, isRotated90or270, sourceWidth, sourceHeight, activeCrop.
    simpl. now rewrite H. }
  assert (E : forall i,
             paint (setRotation r st) i (sizedCanvas (setRotation r st) i) =
             paint (setRotation r' st) i (sizedCanvas (setRotation r' st) i)).
  { intros i.
    unfold paint, sizedCanvas, isRotated90or270, sourceWidth, sourceHeight,
      activeCrop. simpl. now rewrite H. }
  split; [apply E |].
  unfold processImageForUpload.
  change (selectedImage (setRotation r st)) with (selectedImage st).
  change (selectedImage (setRotation r' st)) with (selectedImage st).
  change (imageRef (setRotation r st)) with (imageRef st).
  change (imageRef (setRotation r' st)) with (imageRef st).
  destruct (selectedImage st) as [selected |]; [| reflexivity].
  destruct (imageRef st) as [i |]; [| reflexivity].
  cbv zeta. rewrite (E i), (S i). reflexivity.
Qed.

(** X2: starting from a rotation that is a multiple of 90 (as on first
    load), any run of clicks on the two rotate buttons leaves a multiple of
    90, so the normalized rotation is 0, 90, 180 or 270, and the canvas is
    in swapped orientation exactly when the number of clicks is odd
    (relative to where it started). *)
Theorem rotate_buttons_keep_quarter_turns (turns : list Turn) (w : World num) :
  rotation (session w) mod 90 = 0 ->
  let r := rotation (session (after (clickAll turns) w)) in
  r mod 90 = 0
  /\ In (normalizedRotation r) [0; 90; 180; 270]
  /\ isRotated90or270 r =
     xorb (isRotated90or270 (rotation (session w))) (Nat.odd (length turns)).
Proof.
  revert w. induction turns as [| t rest IH]; intros w Hw.
  - cbn. split; [exact Hw |]. split.
    + destruct (normalizedRotation_mod (rotation (session w))) as [E B].
      assert (K : normalizedRotation (rotation (session w)) mod 90 = 0).
      { rewrite E. Z.to_euclidean_division_equations. lia. }
      revert K B. generalize (normalizedRotation (rotation (session w))).
      intros n K B. simpl.
      Z.to_euclidean_division_equations. lia.
    + now rewrite xorb_false_r.
  - set (w1 := after (click t) w).
    assert (Hstep : rotation (session w1) mod 90 = 0
                    /\ isRotated90or270 (rotation (session w1)) =
                       negb (isRotated90or270 (rotation (session w)))).
    { destruct t; cbn.
      - apply (quarter_turn_flips _ (-90)); auto.
      - apply (quarter_turn_flips _ 90); auto. }
    destruct Hstep as [H1 Hflip].
    specialize (IH w1 H1).
    assert (Hrun : after (clickAll (t :: rest)) w = after (clickAll rest) w1).
    { destruct t; reflexivity. }
    rewrite Hrun. cbv zeta in IH |- *.
    destruct IH as (A & B & C). split; [exact A |]. split; [exact B |].
    rewrite C, Hflip.
    change (length (t :: rest)) with (S (length rest)).
    rewrite Nat.odd_succ, <- Nat.negb_odd.
    destruct (isRotated90or270 (rotation (session w))),
      (Nat.odd (length rest)); reflexivity.
Qed.

End MoreTransform.


Lemma orString_left (a b : string) : a <> "" -> orString a b = a.
Proof.
  intros Ha. unfold orString. apply String.eqb_neq in Ha. now rewrite Ha.
Qed.

Section TransformOutcomes.

Context {num : Type} {P : Pixels num}.

Lemma processImageForUpload_throws
  (browser : Browser num) (st : Session num) (e : Thrown) :
  processImageForUpload browser st = Throw e ->
  In e Outcome.renderErrors
  /\ (e = ErrorObject "Error" "No image selected" <-> selectedImage st = None).
Proof.
  unfold processImageForUpload, Outcome.renderErrors.
  destruct (selectedImage st) as [selected |]; cbn.
  2: { intros [= <-]. split; [now left |]. split; reflexivity. }
  destruct (imageRef st) as [img |]; cbn; [| discriminate].
  destruct (getContext2d browser (sizedCanvas st img)); cbn.
  2: { intros [= <-]. split; [right; now left |]. split; discriminate. }
  destruct (toBlob browser _ _) as [blob |]; cbn; [discriminate |].
  intros [= <-]. split; [right; right; now left |]. split; discriminate.
Qed.


(** X4: painting draws exactly one image: the source rectangle at its
    own size (no scaling), centred on the origin of a frame moved to the
    middle of the canvas and turned by the normalized rotation; [save] and
    [restore] are balanced, so the transform and the saved stack of the
    context are afterwards what they were. *)
Theorem paint_draws_once_and_restores
  (st : Session num) (img : Image) (canvas : Canvas num) :
  let painted := paint st img canvas in
  ctx_saved painted = ctx_saved canvas
  /\ ds_transform (ctx_state painted) = ds_transform (ctx_state canvas)
  /\ exists d,
       ctx_drawn painted = (ctx_drawn canvas ++ [d])%list
       /\ di_image d = img
       /\ ds_transform (di_state d) =
          (ds_transform (ctx_state canvas) ++
           [Translate (div (ofZ (canvas_width canvas)) (ofZ 2))
                      (div (ofZ (canvas_height canvas)) (ofZ 2));
            Rotate (normalizedRotation (rotation st))])%list
       /\ (di_dw d = di_sw d /\ di_dh d = di_sh d)
       /\ di_dx d = div (neg (di_dw d)) (ofZ 2)
       /\ di_dy d = div (neg (di_dh d)) (ofZ 2).
Proof.
  cbv zeta. split; [reflexivity |]. split; [reflexivity |].
  eexists. split; [reflexivity |]. cbn.
  split; [reflexivity |]. split; [now rewrite <- app_assoc |].
  repeat split.
Qed.

Variables (env : ProcessEnv) (net : Network) (browser : Browser num).

(** X5: when the transform fails (no 2D context, or no blob), the submit
    sends no request at all; the error shown is the transform's message,
    the submitting flag is down, and the previous upload result is left as
    it was. *)
Theorem render_failure_sends_nothing
  (w : World num) (selected : File) (e : Thrown) :
  selectedImage (session w) = Some selected ->
  processImageForUpload browser (session w) = Throw e ->
  let w' := after (handleSubmit env net browser) w in
  requests w' = requests w
  /\ error (session w') = Some (caughtMessage e)
  /\ In (caughtMessage e)
       ["Canvas is not supported in this browser"; "Failed to process image"]
  /\ isSubmitting (session w') = false
  /\ apiResponse (session w') = apiResponse (session w)
  /\ convertResponse (session w') = JNull.
Proof.
  intros Hsel Hproc w'. subst w'.
  assert (Hmsg : In (caughtMessage e)
                   ["Canvas is not supported in this browser";
                    "Failed to process image"]).
  { destruct (processImageForUpload_throws browser (session w) e Hproc)
      as [Hin Hnone].
    destruct Hin as [<- | [<- | [<- | []]]]; cbn; auto.
    exfalso. assert (selectedImage (session w) = None) by now apply Hnone.
    congruence. }
  run_handler. rewrite Hsel. cbn. rewrite Hproc. cbn. auto 10.
Qed.

End TransformOutcomes.

(** ** More of the orchestrator *)

(** Walks every path of [handleSubmit], closing each with [fin]. *)
Ltac submit_cases env net browser w fin :=
  run_handler;
  destruct (selectedImage (session w)) as [selected |] eqn:Hsel; cbn; [| fin];
  destruct (processImageForUpload browser (session w)) as [file | e] eqn:Hproc;
  cbn; [| fin];
  destruct (net (uploadRequest env file)) as [response | e] eqn:Hnet;
  cbn; [| fin];
  destruct (ok response) eqn:Hok; cbn;
  [ destruct (json response) as [data | e] eqn:Hjson; cbn; [| fin];
    destruct (Js.getProp data "url") as [u | e] eqn:Hurl; cbn; [| fin];
    destruct (Js.toBoolean u) eqn:Htruthy; cbn; [| fin];
    destruct ((convertApiUrl env =? "")%string
              || (convertApiToken env =? "")%string) eqn:Hcfg; cbn; [fin |];
    destruct (net (convertRequest env u)) as [cr | e] eqn:Hcnet; cbn; [| fin];
    destruct (ok cr) eqn:Hcok; cbn;
    [ destruct (json cr) as [result | e] eqn:Hcjson; cbn; fin
    | destruct (convertErrorMessage cr (orEmptyObject (json cr)))
        as [m | e] eqn:Hcm; cbn; fin ]
  | destruct (uploadErrorMessage response (orEmptyObject (json response)))
      as [m | e] eqn:Hm; cbn; fin ].

Section SubmitInGeneral.

Context {num : Type} {P : Pixels num}.

Variables (env : ProcessEnv) (net : Network) (browser : Browser num).

(** X6: whatever the network and the browser do, [handleSubmit] itself
    never throws and writes only the submitting flag, the error, the upload
    result and the convert result: the selected image, the preview, the
    crop, the sliders, the rotation, the file input and the decoded image
    are as before.  Without a selected image it changes nothing at all;
    with one it ends with the submitting flag down and never with both an
    error and a convert result. *)
Theorem submit_frame (w : World num) :
  let s := session w in
  let s' := session (after (handleSubmit env net browser) w) in
  fst (handleSubmit env net browser w) = Normal tt
  /\ (selectedImage s' = selectedImage s /\ previewUrl s' = previewUrl s
      /\ fileInputValue s' = fileInputValue s /\ imageRef s' = imageRef s)
  /\ (crop s' = crop s /\ completedCrop s' = completedCrop s
      /\ grayscale s' = grayscale s /\ contrast s' = contrast s
      /\ rotation s' = rotation s)
  /\ (selectedImage s = None -> after (handleSubmit env net browser) w = w)
  /\ (selectedImage s <> None ->
      isSubmitting s' = false
      /\ (error s' = None \/ convertResponse s' = JNull)).
Proof.
  cbv zeta.
  submit_cases env net browser w
    ltac:(repeat split; try reflexivity; try congruence; auto).
Qed.

(** X7: a submit sends nothing, or the upload alone, or the upload and
    then one Convert request, never anything else and never in another
    order; the upload carries the transformed file, and a Convert request
    is only sent with a non-empty bearer token, after a 2xx upload whose
    body has a truthy [url], and is built from that [url]. *)
Theorem submit_request_log (w : World num) :
  let w' := after (handleSubmit env net browser) w in
  requests w' = requests w
  \/ (exists file,
         processImageForUpload browser (session w) = Normal file
         /\ requests w' = (requests w ++ [uploadRequest env file])%list)
  \/ (exists file response data u,
         processImageForUpload browser (session w) = Normal file
         /\ net (uploadRequest env file) = Normal response
         /\ ok response = true
         /\ json response = Normal data
         /\ Js.getProp data "url" = Normal u
         /\ Js.toBoolean u = true
         /\ convertApiToken env <> ""
         /\ requests w' =
            (requests w ++ [uploadRequest env file; convertRequest env u])%list).
Proof.
  cbv zeta.
  submit_cases env net browser w
    ltac:(first
            [ left; reflexivity
            | right; left; eexists; split; [reflexivity | reflexivity]
            | right; right; exists file, response, data, u;
              rewrite <- app_assoc;
              apply orb_false_elim in Hcfg as [_ Htok];
              apply String.eqb_neq in Htok;
              repeat split; auto ]).
Qed.

End SubmitInGeneral.

Lemma getPropOpt_field (v : JsValue) (k : string) :
  Js.getPropOpt v k = Normal (Spec.field v k).
Proof. destruct v; reflexivity. Qed.

Lemma newError_truthy (m : JsValue) :
  Js.toBoolean m = true -> newError m = ErrorObject "Error" (Text.toString m).
Proof. destruct m; simpl; intros H; try reflexivity; discriminate. Qed.

(** The thrown error of a failed conversion carries [Outcome.convertMessage],
    whatever the body. *)
Lemma convertErrorMessage_spec (response : Response) :
  exists m,
    convertErrorMessage response (orEmptyObject (json response)) = Normal m
    /\ newError m = ErrorObject "Error" (Outcome.convertMessage response).
Proof.
  unfold convertErrorMessage, Outcome.convertMessage.
  rewrite !getPropOpt_field. cbn.
  destruct (Js.toBoolean (Spec.field (orEmptyObject (json response)) "message"))
    eqn:Hmsg.
  - eexists. split; [reflexivity |]. now apply newError_truthy.
  - rewrite ?getPropOpt_field. cbn.
    destruct (Js.toBoolean (Spec.field (orEmptyObject (json response)) "detail"))
      eqn:Hdet.
    + eexists. split; [reflexivity |]. now apply newError_truthy.
    + eexists. split; reflexivity.
Qed.

Section SubmitPaths.

Context {num : Type} {P : Pixels num}.

Variables (env : ProcessEnv) (net : Network) (browser : Browser num).

(** X8: when [fetch] of the upload rejects, the submit ends with the
    rejection's message as error ("Failed to process image" when what was
    thrown is no Error), the upload as its only request, the submitting
    flag down, and the upload result of before still in place. *)
Theorem upload_rejection_is_reported
  (w : World num) (selected processed : File) (e : Thrown) :
  selectedImage (session w) = Some selected ->
  processImageForUpload browser (session w) = Normal processed ->
  net (uploadRequest env processed) = Throw e ->
  let w' := after (handleSubmit env net browser) w in
  error (session w') =
    Some (match e with
          | ErrorObject _ message => message
          | ThrownValue _ => "Failed to process image"
          end)
  /\ requests w' = (requests w ++ [uploadRequest env processed])%list
  /\ isSubmitting (session w') = false
  /\ apiResponse (session w') = apiResponse (session w)
  /\ convertResponse (session w') = JNull.
Proof.
  intros Hsel Hproc Hnet w'. subst w'.
  run_handler. rewrite Hsel. cbn. rewrite Hproc, Hnet. cbn.
  destruct e; auto.
Qed.

(** X9: when the Convert API answers non-2xx, the submit fails with the
    body's [message] if truthy, else its [detail] if truthy, else
    [Convert API error: <status> <statusText>]; a body that does not parse
    or is [null] gives the status message too.  This is for a body in which
    every number is a safe integer and no object has a key [toString].  The
    upload result is kept, no convert result is stored, and exactly the two
    requests were sent. *)
Theorem convert_failure_message
  (w : World num) (selected processed : File) (response answer : Response)
  (body : JsValue) :
  selectedImage (session w) = Some selected ->
  processImageForUpload browser (session w) = Normal processed ->
  net (uploadRequest env processed) = Normal response ->
  ok response = true ->
  json response = Normal body ->
  Js.toBoolean (Spec.field body "url") = true ->
  convertApiToken env <> "" ->
  net (convertRequest env (Spec.field body "url")) = Normal answer ->
  ok answer = false ->
  Text.printable (orEmptyObject (json answer)) = true ->
  let w' := after (handleSubmit env net browser) w in
  error (session w') = Some (Outcome.convertMessage answer)
  /\ apiResponse (session w') = body
  /\ convertResponse (session w') = JNull
  /\ isSubmitting (session w') = false
  /\ requests w' =
     (requests w ++ [uploadRequest env processed;
                     convertRequest env (Spec.field body "url")])%list.
Proof.
  intros Hsel Hproc Hnet Hok Hjson Htruthy Htoken Hcnet Hcok _ w'. subst w'.
  destruct (convertErrorMessage_spec answer) as (m & Hm & Herr).
  unfold newError in Herr. injection Herr as Herr.
  apply String.eqb_neq in Htoken.
  run_handler. rewrite Hsel. cbn. rewrite Hproc, Hnet, Hok. cbn. rewrite Hjson.
  rewrite (getProp_not_nullish body "url"
             (truthy_field_not_nullish body "url" Htruthy)).
  rewrite Htruthy, convertApiUrl_not_empty, Htoken. cbn.
  rewrite Hcnet, Hcok. cbn. rewrite Hm. cbn. rewrite Herr.
  rewrite <- app_assoc. auto.
Qed.

(** X10: when the upload answers 2xx with a truthy [url], a token is
    configured and the conversion answers 2xx with a body that parses, the
    submit ends without error, with the upload body as upload result and
    the Convert body, whatever it is, as convert result, the submitting
    flag down, and exactly the upload and the Convert request sent. *)
Theorem converted_result_is_stored
  (w : World num) (selected processed : File) (response answer : Response)
  (body result : JsValue) :
  selectedImage (session w) = Some selected ->
  processImageForUpload browser (session w) = Normal processed ->
  net (uploadRequest env processed) = Normal response ->
  ok response = true ->
  json response = Normal body ->
  Js.toBoolean (Spec.field body "url") = true ->
  convertApiToken env <> "" ->
  net (convertRequest env (Spec.field body "url")) = Normal answer ->
  ok answer = true ->
  json answer = Normal result ->
  let w' := after (handleSubmit env net browser) w in
  error (session w') = None
  /\ apiResponse (session w') = body
  /\ convertResponse (session w') = result
  /\ isSubmitting (session w') = false
  /\ requests w' =
     (requests w ++ [uploadRequest env processed;
                     convertRequest env (Spec.field body "url")])%list.
Proof.
  intros Hsel Hproc Hnet Hok Hjson Htruthy Htoken Hcnet Hcok Hcjson w'. subst w'.
  apply String.eqb_neq in Htoken.
  run_handler. rewrite Hsel. cbn. rewrite Hproc, Hnet, Hok. cbn. rewrite Hjson.
  rewrite (getProp_not_nullish body "url"
             (truthy_field_not_nullish body "url" Htruthy)).
  rewrite Htruthy, convertApiUrl_not_empty, Htoken. cbn.
  rewrite Hcnet, Hcok. cbn. rewrite Hcjson. cbn.
  rewrite <- app_assoc. auto 10.
Qed.

(** X11: after a non-2xx upload the upload result of an earlier submit
    is still in place and its block still shown; the error banner shows
    exactly when the derived message is not empty, so a body whose [detail]
    is the empty list fails without a banner. *)
Theorem failed_upload_display
  (w : World num) (selected processed : File) (response : Response) :
  selectedImage (session w) = Some selected ->
  processImageForUpload browser (session w) = Normal processed ->
  net (uploadRequest env processed) = Normal response ->
  ok response = false ->
  Spec.nullish (orEmptyObject (json response)) = false ->
  (forall subErrors,
      Spec.field (orEmptyObject (json response)) "detail" = JArr subErrors ->
      forallb (fun d => negb (Spec.nullish d)) subErrors = true) ->
  let s := session w in
  let s' := session (after (handleSubmit env net browser) w) in
  apiResponse s' = apiResponse s
  /\ showsUploadResult (visibleSections s') = showsUploadResult (visibleSections s)
  /\ showsConvertResult (visibleSections s') = false
  /\ showsError (visibleSections s') =
     negb (Spec.uploadMessage response =? "")%string.
Proof.
  intros Hsel Hproc Hnet Hok Hbody Hsub. cbv zeta.
  destruct (uploadErrorMessage_spec response Hbody Hsub) as (m & Hm & Herr).
  unfold newError in Herr. injection Herr as Herr.
  run_handler. rewrite Hsel. cbn. rewrite Hproc, Hnet, Hok. cbn.
  rewrite Hm. cbn. rewrite Herr. auto.
Qed.

End SubmitPaths.

(** ** More of the presenter and the page *)

Lemma extractConvertTables_eval (response : JsValue) :
  extractConvertTables response = Normal (Spec.tables response).
Proof.
  unfold extractConvertTables, Spec.tables, Spec.declaredTables.
  rewrite lacksData_spec. simpl.
  destruct (Spec.isObject response) eqn:Hr; simpl; [| reflexivity].
  destruct (Spec.isObject (Spec.field response "data")) eqn:Hd; simpl;
    [| reflexivity].
  rewrite (getProp_field response "data" Hr). simpl.
  rewrite (getProp_field _ "extracted_tables" Hd). simpl.
  destruct (Spec.field (Spec.field response "data") "extracted_tables");
    try reflexivity.
  rewrite mapM_tableOfEntry. simpl. now rewrite dropNulls_filter.
Qed.

Lemma wellFormed_tables_are_arrays (entries : list JsValue) :
  Forall (fun t => Js.isArray (columns t) = true /\ Js.isArray (rows t) = true)
    (map Spec.asTable (filter Spec.wellFormedTable entries)).
Proof.
  induction entries as [| e rest IH]; simpl; [constructor |].
  destruct (Spec.wellFormedTable e) eqn:He; [| exact IH].
  simpl. constructor; [| exact IH].
  unfold Spec.wellFormedTable in He.
  apply andb_prop in He as [He Hrows]. apply andb_prop in He as [_ Hcols].
  split; assumption.
Qed.

(** X12: the shapes of what the extractors return, on every value: the
    url is [null] or a string; the metadata is [null] or a non-null object;
    every table has arrays as [columns] and [rows], and there are no more
    tables than entries in the response.  Nothing inside is checked: the
    elements of [columns] and [rows] come out as they came in, whatever
    they are. *)
Theorem presenter_result_shapes (response : JsValue) :
  (exists u, extractConvertUrl response = Normal u
             /\ (u = JNull \/ exists s, u = JStr s))
  /\ (exists m, extractConvertMetadata response = Normal m
                /\ (m = JNull \/ Spec.isObject m = true))
  /\ (exists ts, extractConvertTables response = Normal ts
                 /\ Forall (fun t => Js.isArray (columns t) = true
                                     /\ Js.isArray (rows t) = true) ts
                 /\ (length ts <= length (Spec.declaredTables response))%nat)
  /\ (forall cells lines others,
        extractConvertTables
          (JObj [("data",
                  JObj [("extracted_tables",
                         JArr [JObj (("columns", JArr cells)
                                       :: ("rows", JArr lines) :: others)])])])
        = Normal [{| columns := JArr cells; rows := JArr lines |}]).
Proof.
  split; [| split; [| split]].
  - unfold extractConvertUrl.
    destruct response as [| | b | n | s | items | props]; simpl; eauto.
    + destruct b; simpl; eauto.
    + destruct (n =? 0); simpl; eauto.
    + destruct (s =? "")%string; simpl; eauto.
    + destruct (Js.lookup "url" props) as [u |]; simpl; eauto.
      destruct u; simpl; eauto.
  - unfold extractConvertMetadata. rewrite lacksData_spec. simpl.
    destruct (Spec.isObject response) eqn:Hr; simpl; eauto.
    destruct (Spec.isObject (Spec.field response "data")) eqn:Hd; simpl; eauto.
    rewrite (getProp_field response "data" Hr). simpl.
    rewrite (getProp_field _ "metadata" Hd). simpl.
    destruct (Spec.field (Spec.field response "data") "metadata")
      as [| | b | n | s | items | props]; simpl; eauto.
    + destruct b; simpl; eauto.
    + destruct (n =? 0); simpl; eauto.
    + destruct (s =? "")%string; simpl; eauto.
  - exists (Spec.tables response). split; [apply extractConvertTables_eval |].
    unfold Spec.tables. split; [apply wellFormed_tables_are_arrays |].
    rewrite length_map. apply filter_length_le.
  - intros cells lines others. reflexivity.
Qed.

(** X13: each value read from [process.env] is the variable when it is
    set and not empty, and its default otherwise: the two endpoints default
    to the parse.jivalearningsystem.com upload URL and the localhost
    convert URL, the five metadata values to dkn_report, 0, 132, 215 and
    2025-2026, and the token to the empty string, so that the token alone
    can be empty, exactly when its variable is unset or empty. *)
Theorem configuration_fallbacks (env : ProcessEnv) :
  uploadApiUrl env =
    Spec.configured (NEXT_PUBLIC_PARSE_URL env)
      "https://parse.jivalearningsystem.com/api/upload-to-tmpfiles"
  /\ convertApiUrl env =
     Spec.configured (NEXT_PUBLIC_CONVERT_API_URL env)
       "http://localhost:3000/api/v1/growth-card/convert-image"
  /\ convertApiToken env =
     Spec.configured (NEXT_PUBLIC_CONVERT_API_TOKEN env) ""
  /\ convertEntityType env =
     Spec.configured (NEXT_PUBLIC_CONVERT_ENTITY_TYPE env) "dkn_report"
  /\ convertEntityId env =
     Spec.configured (NEXT_PUBLIC_CONVERT_ENTITY_ID env) "0"
  /\ convertClassId env =
     Spec.configured (NEXT_PUBLIC_CONVERT_CLASS_ID env) "132"
  /\ convertSchoolId env =
     Spec.configured (NEXT_PUBLIC_CONVERT_SCHOOL_ID env) "215"
  /\ convertAcademicYear env =
     Spec.configured (NEXT_PUBLIC_CONVERT_ACADEMIC_YEAR env) "2025-2026"
  /\ (uploadApiUrl env <> "" /\ convertApiUrl env <> ""
      /\ convertEntityType env <> "" /\ convertEntityId env <> ""
      /\ convertClassId env <> "" /\ convertSchoolId env <> ""
      /\ convertAcademicYear env <> "")
  /\ (convertApiToken env = "" <->
      NEXT_PUBLIC_CONVERT_API_TOKEN env = None
      \/ NEXT_PUBLIC_CONVERT_API_TOKEN env = Some "").
Proof.
  assert (E : forall x d, envOr x d = Spec.configured x d).
  { intros [[| c v] |] d; reflexivity. }
  repeat (split; [apply E |]).
  split.
  - repeat split; apply String.eqb_neq, envOr_not_empty; discriminate.
  - unfold convertApiToken. rewrite E.
    destruct (NEXT_PUBLIC_CONVERT_API_TOKEN env) as [[| c v] |]; simpl;
      split; intros H; auto; try discriminate.
    destruct H as [H | H]; discriminate.
Qed.

Section PageControls.

Context {num : Type} {P : Pixels num}.

(** X14: after a reset the page shows what it shows on first load: no
    file name, no editor, no upload result, no convert result, no error
    banner, whatever the state was; and a submit right after a reset does
    nothing. *)
Theorem reset_shows_first_load_page
  (env : ProcessEnv) (net : Network) (browser : Browser num) (w : World num) :
  let hidden := fun disabled =>
    {| showsSelectedName := false; showsEditor := false;
       showsUploadResult := false; showsConvertResult := false;
       showsError := false; submitDisabled := disabled |} in
  visibleSections (session (after handleReset w)) = hidden (isSubmitting (session w))
  /\ visibleSections (@firstLoad num P) = hidden false
  /\ after (handleSubmit env net browser) (after handleReset w) = after handleReset w.
Proof.
  cbv zeta. run_handler. cbn.
  destruct (fileInputValue (session w)); cbn; repeat split.
Qed.

(** X15: choosing a file starts afresh: the file is selected with the
    preview URL the browser minted, the upload result, the convert result
    and the error are dropped, the crop, the sliders and the rotation are
    back to their defaults; no request is sent and the submitting flag, the
    decoded image and the file input are not written.  Closing the dialog
    without a file changes nothing. *)
Theorem select_starts_afresh
  (createObjectURL : File -> string) (file : option File) (w : World num) :
  let w' := after (handleImageSelect createObjectURL file) w in
  match file with
  | None => w' = w
  | Some f =>
      Spec.sessionFields (session w') =
        (Some f, Some (createObjectURL f),
         (buildDefaultCrop, None, 0, 100, 0), JNull, JNull, None)
      /\ isSubmitting (session w') = isSubmitting (session w)
      /\ imageRef (session w') = imageRef (session w)
      /\ fileInputValue (session w') = fileInputValue (session w)
      /\ requests w' = requests w
  end.
Proof.
  cbv zeta. destruct file as [f |]; [| reflexivity].
  unfold after, handleImageSelect, resetEditorState, andThen, update. cbn.
  repeat split.
Qed.

End PageControls.

Section EdgeCases.

Context {num : Type} {P : Pixels num}.

Variables (env : ProcessEnv) (net : Network) (browser : Browser num).

(** X16: a completed crop without positive width and height is ignored:
    the transform gives exactly what it gives without any completed crop
    (the whole displayed image). *)
Theorem degenerate_crop_is_ignored (st : Session num) (c : Crop num) :
  completedCrop st = Some c ->
  positive (crop_width c) && positive (crop_height c) = false ->
  (forall img,
      activeCrop st img =
      {| rect_x := ofZ 0; rect_y := ofZ 0;
         rect_width := ofZ (img_width img);
         rect_height := ofZ (img_height img) |})
  /\ processImageForUpload browser st =
     processImageForUpload browser (setCompletedCrop None st).
Proof.
  intros Hc Hpos.
  assert (A : forall img,
             activeCrop st img =
             {| rect_x := ofZ 0; rect_y := ofZ 0;
                rect_width := ofZ (img_width img);
                rect_height := ofZ (img_height img) |}).
  { intros img. unfold activeCrop. now rewrite Hc, Hpos. }
  split; [exact A |].
  assert (B : forall img,
             activeCrop (setCompletedCrop None st) img = activeCrop st img).
  { intros img. now rewrite A. }
  unfold processImageForUpload, paint, sizedCanvas, sourceWidth, sourceHeight.
  cbn [selectedImage imageRef rotation grayscale contrast setCompletedCrop].
  destruct (selectedImage st) as [selected |]; [| reflexivity].
  destruct (imageRef st) as [img |]; [| reflexivity].
  now rewrite B.
Qed.

(** X17: a body that is the JSON value [null] is not handled by the
    upload path: with a 2xx status the submit stores [null] as upload
    result and then fails reading [url]; with another status it fails
    reading [detail]; either way the error shown is the TypeError's
    message, not a status message, and no Convert request is sent. *)
Theorem null_upload_body_is_a_type_error
  (w : World num) (selected processed : File) (response : Response) :
  selectedImage (session w) = Some selected ->
  processImageForUpload browser (session w) = Normal processed ->
  net (uploadRequest env processed) = Normal response ->
  json response = Normal JNull ->
  let w' := after (handleSubmit env net browser) w in
  error (session w') =
    Some (caughtMessage
            (Js.cannotRead "null" (if ok response then "url" else "detail")))
  /\ (ok response = true -> apiResponse (session w') = JNull)
  /\ isSubmitting (session w') = false
  /\ requests w' = (requests w ++ [uploadRequest env processed])%list.
Proof.
  intros Hsel Hproc Hnet Hjson w'. subst w'.
  run_handler. rewrite Hsel. cbn. rewrite Hproc, Hnet. cbn.
  destruct (ok response); cbn; rewrite ?Hjson; cbn; unfold uploadErrorMessage;
    rewrite ?Hjson; cbn; repeat split; auto; discriminate.
Qed.

End EdgeCases.

(** ** The further properties at sample inputs *)

Lemma rotation_matters_modulo_360_witness :
  processImageForUpload Sample.browser (setRotation (-90) Sample.edited) =
  processImageForUpload Sample.browser (setRotation 630 Sample.edited).
Proof.
  exact (proj2 (rotation_matters_modulo_360 Sample.browser Sample.edited
                  Sample.photo (-90) 630 eq_refl)).
Defined.

Lemma rotate_buttons_keep_quarter_turns_witness :
  let r := rotation (session (after (clickAll [TurnLeft; TurnLeft; TurnLeft])
                                Sample.picked)) in
  r mod 90 = 0
  /\ In (normalizedRotation r) [0; 90; 180; 270]
  /\ isRotated90or270 r = true.
Proof.
  exact (rotate_buttons_keep_quarter_turns [TurnLeft; TurnLeft; TurnLeft]
           Sample.picked eq_refl).
Defined.

Lemma render_failure_sends_nothing_witness :
  let w' := after (handleSubmit Sample.envTokenOnly Outcome.offline
                     Outcome.noCanvas) Outcome.loaded in
  requests w' = []
  /\ error (session w') = Some "Canvas is not supported in this browser".
Proof.
  pose proof (render_failure_sends_nothing Sample.envTokenOnly Outcome.offline
                Outcome.noCanvas Outcome.loaded Sample.file
                (ErrorObject "Error" "Canvas is not supported in this browser")
                eq_refl eq_refl) as (Hreq & Herr & _).
  split; [exact Hreq | exact Herr].
Defined.

Lemma upload_rejection_is_reported_witness :
  let w' := after (handleSubmit Sample.envTokenOnly Outcome.offline
                     Sample.browser) Outcome.loaded in
  error (session w') = Some "Failed to fetch"
  /\ length (requests w') = 1%nat.
Proof.
  pose proof (upload_rejection_is_reported Sample.envTokenOnly Outcome.offline
                Sample.browser Outcome.loaded Sample.file _
                (ErrorObject "TypeError" "Failed to fetch")
                eq_refl eq_refl eq_refl) as (Herr & Hreq & _).
  split; [exact Herr | now rewrite Hreq].
Defined.

Lemma convert_failure_message_witness :
  let w' := after (handleSubmit Sample.envTokenOnly
                     (Sample.network (Sample.respond 200 "OK" Sample.uploaded)
                        Outcome.refused)
                     Sample.browser) Sample.picked in
  error (session w') = Some "Invalid token"
  /\ apiResponse (session w') = Sample.uploaded
  /\ convertResponse (session w') = JNull.
Proof.
  pose proof (convert_failure_message Sample.envTokenOnly
                (Sample.network (Sample.respond 200 "OK" Sample.uploaded)
                   Outcome.refused)
                Sample.browser Sample.picked Sample.file Sample.file
                (Sample.respond 200 "OK" Sample.uploaded) Outcome.refused
                Sample.uploaded eq_refl eq_refl eq_refl eq_refl eq_refl eq_refl)
    as H.
  destruct H as (Herr & Hup & Hconv & _); [discriminate | reflexivity
                                          | reflexivity | reflexivity |].
  repeat split; assumption.
Defined.

Lemma converted_result_is_stored_witness :
  let w' := after (handleSubmit Sample.envTokenOnly
                     (Sample.network (Sample.respond 200 "OK" Sample.uploaded)
                        (Sample.respond 200 "OK" Sample.converted))
                     Sample.browser) Sample.picked in
  error (session w') = None
  /\ convertResponse (session w') = Sample.converted.
Proof.
  pose proof (converted_result_is_stored Sample.envTokenOnly
                (Sample.network (Sample.respond 200 "OK" Sample.uploaded)
                   (Sample.respond 200 "OK" Sample.converted))
                Sample.browser Sample.picked Sample.file Sample.file
                (Sample.respond 200 "OK" Sample.uploaded)
                (Sample.respond 200 "OK" Sample.converted)
                Sample.uploaded Sample.converted
                eq_refl eq_refl eq_refl eq_refl eq_refl eq_refl) as H.
  destruct H as (Herr & _ & Hconv & _); [discriminate | reflexivity
                                        | reflexivity | reflexivity |].
  split; assumption.
Defined.

(** A 422 whose [detail] is the empty list: the submit failed, the
    message is empty, no banner. *)
Lemma failed_upload_display_witness :
  let s' := session (after (handleSubmit Sample.envUnset
                              (Sample.network Outcome.emptyList Outcome.emptyList)
                              Sample.browser) Sample.picked) in
  error s' = Some "" /\ showsError (visibleSections s') = false.
Proof.
  pose proof (failed_upload_display Sample.envUnset
                (Sample.network Outcome.emptyList Outcome.emptyList)
                Sample.browser Sample.picked Sample.file Sample.file
                Outcome.emptyList eq_refl eq_refl eq_refl eq_refl eq_refl) as H.
  destruct H as (_ & _ & _ & Hbanner).
  - intros subErrors E. injection E as <-. reflexivity.
  - split; [reflexivity | exact Hbanner].
Defined.

Lemma degenerate_crop_is_ignored_witness :
  let zero := {| crop_unit := "px"; crop_x := inject_Z 5; crop_y := inject_Z 5;
                 crop_width := inject_Z 0; crop_height := inject_Z 40 |} in
  processImageForUpload Sample.browser
    (setCompletedCrop (Some zero) Sample.edited) =
  processImageForUpload Sample.browser Sample.edited.
Proof.
  exact (proj2 (degenerate_crop_is_ignored Sample.browser
                  (setCompletedCrop
                     (Some {| crop_unit := "px"; crop_x := inject_Z 5;
                              crop_y := inject_Z 5; crop_width := inject_Z 0;
                              crop_height := inject_Z 40 |}) Sample.edited)
                  _ eq_refl eq_refl)).
Defined.

Lemma null_upload_body_is_a_type_error_witness :
  let w' := after (handleSubmit Sample.envTokenOnly
                     (Sample.network (Sample.respond 200 "OK" JNull)
                        (Sample.respond 200 "OK" Sample.converted))
                     Sample.browser) Sample.picked in
  error (session w') = Some "Cannot read properties of null (reading 'url')"
  /\ length (requests w') = 1%nat.
Proof.
  pose proof (null_upload_body_is_a_type_error Sample.envTokenOnly
                (Sample.network (Sample.respond 200 "OK" JNull)
                   (Sample.respond 200 "OK" Sample.converted))
                Sample.browser Sample.picked Sample.file Sample.file
                (Sample.respond 200 "OK" JNull)
                eq_refl eq_refl eq_refl eq_refl) as (Herr & _ & _ & Hreq).
  split; [exact Herr | now rewrite Hreq].
Defined.


(** C8 fails on the code: a reset after the preview was decoded leaves the
    decoded image in [imageRef], where first load has none.  From there, a
    new file chosen and submitted before its own preview is decoded is
    uploaded as a rendering of the old image under the new name; from first
    load the same steps upload the chosen file itself. *)
Lemma reset_keeps_decoded_image :
  let again := fun w : World Q =>
    after (handleSubmit Sample.envTokenOnly Outcome.offline Sample.browser)
      (after (handleImageSelect Outcome.blobUrl (Some Outcome.otherFile)) w) in
  imageRef (session Outcome.loaded) = Some Sample.photo
  /\ imageRef (session (after handleReset Outcome.loaded)) = Some Sample.photo
  /\ imageRef (session Outcome.fresh) = None
  /\ requests (again (after handleReset Outcome.loaded)) =
     [uploadRequest Sample.envTokenOnly
        {| file_name := "b.jpg"; file_type := "image/jpeg";
           file_bits := "RASTER" |}]
  /\ requests (again Outcome.fresh) =
     [uploadRequest Sample.envTokenOnly Outcome.otherFile].
Proof. repeat split. Qed.
